(** * nginx-accesslog-exporter: the per-line pipeline of [main.go]

    The exporter follows an access log, matches every line against a
    format template and turns the extracted fields into Prometheus
    metric updates ([processLogFile] in [main.go]).

    Layout of this development:
    - [Utf8], [Unicode], [GoStrings]: the parts of Go's [unicode/utf8],
      [unicode] and [strings] packages behind [strings.Fields];
    - [Gonx]: the format compiler, line matcher and entry accessors;
    - [Prometheus]: the calls the pipeline makes on the metric registry
      and their effect on the registry state;
    - [Exporter]: [Metrics.Init], [processLogFile] and [main];
    - the theorems, one block per property of the specification. *)

From Stdlib Require Import Ascii QArith.
From stdpp Require Import gmap strings list.

Local Open Scope stdpp_scope.

(** The double-quote character, written by its code. *)
Definition dquote : ascii := "034"%char.
Definition dq : string := String dquote EmptyString.

(** ** Byte strings *)

Module Bytes.

Fixpoint mem (c : ascii) (s : string) : bool :=
  match s with
  | EmptyString => false
  | String d s' => if decide (c = d) then true else mem c s'
  end.

(** [stripPrefix p s] is the rest of [s] after the prefix [p]. *)
Fixpoint stripPrefix (p s : string) : option string :=
  match p with
  | EmptyString => Some s
  | String c p' =>
      match s with
      | EmptyString => None
      | String d s' => if decide (c = d) then stripPrefix p' s' else None
      end
  end.

(** [splitAt c s] cuts [s] before the first occurrence of [c]; the
    whole of [s] is the first part when [c] does not occur. *)
Fixpoint splitAt (c : ascii) (s : string) : string * string :=
  match s with
  | EmptyString => (EmptyString, EmptyString)
  | String d s' =>
      if decide (c = d) then (EmptyString, s)
      else let '(v, r) := splitAt c s' in (String d v, r)
  end.

End Bytes.

(** ** Go's [unicode/utf8], [unicode] and [strings] packages

    Lines are byte strings.  [strings.Fields] is what the loop body
    calls; it is written out with the two library functions it rests
    on once a byte of the string is not ASCII. *)

Module Utf8.

Definition RuneError : N := 65533.
Definition RuneSelf : N := 128.

(** Continuation bytes lie between [locb] and [hicb]. *)
Definition locb : N := 128.
Definition hicb : N := 191.

(** What the table [first] of [utf8.go] says of a leading byte: ASCII,
    invalid, or the start of a sequence of [size] bytes whose second
    byte must lie in the accept range [lo .. hi]. *)
Inductive Lead : Type :=
| AS
| XX
| Seq (size : nat) (lo hi : N).

Definition first (b : N) : Lead :=
  if (b <? 128)%N then AS
  else if (b <? 194)%N then XX
  else if (b <=? 223)%N then Seq 2 locb hicb
  else if (b =? 224)%N then Seq 3 160 hicb
  else if (b <=? 236)%N then Seq 3 locb hicb
  else if (b =? 237)%N then Seq 3 locb 159
  else if (b <=? 239)%N then Seq 3 locb hicb
  else if (b =? 240)%N then Seq 4 144 hicb
  else if (b <=? 243)%N then Seq 4 locb hicb
  else if (b =? 244)%N then Seq 4 locb 143
  else XX.

Definition within (lo hi : N) (c : ascii) : bool :=
  ((lo <=? N_of_ascii c) && (N_of_ascii c <=? hi))%N.

(** The low bits a byte contributes to the rune. *)
Definition bits (mask : N) (c : ascii) : N := N.land (N_of_ascii c) mask.

(** [utf8.DecodeRuneInString]: the first rune of [s] and its width in
    bytes; an invalid or truncated encoding gives [RuneError] and
    width 1.  The [range] loop over a string decodes the same way. *)
Definition DecodeRuneInString (s : string) : N * nat :=
  match s with
  | EmptyString => (RuneError, 0)
  | String s0 r0 =>
      match first (N_of_ascii s0) with
      | AS => (N_of_ascii s0, 1)
      | XX => (RuneError, 1)
      | Seq sz lo hi =>
          if String.length s <? sz then (RuneError, 1)
          else
            match r0 with
            | EmptyString => (RuneError, 1)
            | String s1 r1 =>
                if negb (within lo hi s1) then (RuneError, 1)
                else if sz <=? 2 then
                  (N.lor (N.shiftl (bits 31 s0) 6) (bits 63 s1), 2)
                else
                  match r1 with
                  | EmptyString => (RuneError, 1)
                  | String s2 r2 =>
                      if negb (within locb hicb s2) then (RuneError, 1)
                      else if sz <=? 3 then
                        (N.lor (N.shiftl (bits 15 s0) 12)
                           (N.lor (N.shiftl (bits 63 s1) 6) (bits 63 s2)), 3)
                      else
                        match r2 with
                        | EmptyString => (RuneError, 1)
                        | String s3 _ =>
                            if negb (within locb hicb s3) then (RuneError, 1)
                            else
                              (N.lor (N.shiftl (bits 7 s0) 18)
                                 (N.lor (N.shiftl (bits 63 s1) 12)
                                    (N.lor (N.shiftl (bits 63 s2) 6)
                                       (bits 63 s3))), 4)
                        end
                  end
            end
      end
  end.

End Utf8.

Module Unicode.

(** [unicode.IsSpace]: in Latin-1 the six ASCII spaces, U+0085 and
    U+00A0; above it the other code points with the White_Space
    property. *)
Definition IsSpace (r : N) : bool :=
  if (r <=? 255)%N then
    ((9 <=? r) && (r <=? 13) || (r =? 32) || (r =? 133) || (r =? 160))%N
  else
    ((r =? 5760) || (8192 <=? r) && (r <=? 8202) || (r =? 8232)
     || (r =? 8233) || (r =? 8239) || (r =? 8287) || (r =? 12288))%N.

End Unicode.

Module GoStrings.

(** [asciiSpace] of [strings.go]: tab, line feed, vertical tab, form
    feed, carriage return and space. *)
Definition asciiSpace (c : ascii) : bool :=
  match c with
  | "009" | "010" | "011" | "012" | "013" | " " => true
  | _ => false
  end%char.

(** No byte of [s] has its high bit set ([setBits < utf8.RuneSelf]). *)
Fixpoint isASCII (s : string) : bool :=
  match s with
  | EmptyString => true
  | String c s' => (N_of_ascii c <? Utf8.RuneSelf)%N && isASCII s'
  end.

(** The ASCII fast path of [Fields]; [cur] is the token under
    construction. *)
Fixpoint fieldsFrom (cur : string) (s : string) : list string :=
  match s with
  | EmptyString =>
      match cur with EmptyString => [] | _ => [cur] end
  | String c s' =>
      if asciiSpace c then
        match cur with
        | EmptyString => fieldsFrom EmptyString s'
        | _ => cur :: fieldsFrom EmptyString s'
        end
      else fieldsFrom (cur +:+ String c EmptyString) s'
  end.

(** [strings.FieldsFunc], rune by rune.  At the start of a rune
    ([more = 0]) the rune is decoded and tested with [f]; its
    remaining [more] bytes follow it into the token under construction
    ([keep]) or are dropped with it. *)
Fixpoint fieldsFuncFrom (f : N → bool) (cur : string) (more : nat)
    (keep : bool) (s : string) : list string :=
  match s with
  | EmptyString =>
      match cur with EmptyString => [] | _ => [cur] end
  | String c s' =>
      match more with
      | S k =>
          fieldsFuncFrom f
            (if keep then cur +:+ String c EmptyString else cur) k keep s'
      | 0 =>
          let '(r, width) := Utf8.DecodeRuneInString s in
          if f r then
            match cur with
            | EmptyString => fieldsFuncFrom f EmptyString (width - 1) false s'
            | _ => cur :: fieldsFuncFrom f EmptyString (width - 1) false s'
            end
          else
            fieldsFuncFrom f (cur +:+ String c EmptyString) (width - 1) true s'
      end
  end.

Definition FieldsFunc (s : string) (f : N → bool) : list string :=
  fieldsFuncFrom f EmptyString 0 false s.

(** [strings.Fields]: the maximal runs of runes that are not white
    space, in order; the empty slice when [s] holds white space only. *)
Definition Fields (s : string) : list string :=
  if isASCII s then fieldsFrom EmptyString s
  else FieldsFunc s Unicode.IsSpace.

End GoStrings.

(** ** The access-log parser ([github.com/satyrius/gonx])

    [main.go] builds the parser once with [gonx.NewParser] and calls
    [ParseString], [Field] and [FloatField] on it; the library itself is
    not part of the repository sources.  Its three parts are modelled on
    sections 3, 4.1 and 4.2 of the specification. *)

Module Gonx.

(** Modelled from the spec: the FormatToken of section 3, "either a
    Literal(text) or a Field(name)"; [gonx] keeps a compiled regular
    expression instead, which is missing from the sources. *)
Inductive FormatToken : Type :=
| Literal (text : string)
| Field (name : string).

Global Instance FormatToken_eq_dec : EqDecision FormatToken.
Proof. solve_decision. Defined.

Abbreviation FormatPlan := (list FormatToken).

Inductive ConfigError : Type :=
| AdjacentPlaceholders (format : string).

(** Identifier characters: letters, digits, underscore. *)
Definition isIdent (c : ascii) : bool :=
  let n := nat_of_ascii c in
  ((48 <=? n) && (n <=? 57)) || ((65 <=? n) && (n <=? 90))
  || ((97 <=? n) && (n <=? 122)) || (n =? 95).

Definition sigil : ascii := "$"%char.

(** The token under construction while scanning the template. *)
Inductive Pending : Type :=
| NoToken
| InLiteral (text : string)
| InField (name : string).

Definition emit (p : Pending) : FormatPlan :=
  match p with
  | NoToken => []
  | InLiteral text => [Literal text]
  | InField name => [Field name]
  end.

(** Modelled from the spec: the scan of section 4.1, "scan left to
    right; on sigil, accumulate an identifier (letters, digits,
    underscore) as a Field token; all other runs of characters
    accumulate into a Literal token"; tokens are emitted at the sigil
    boundaries.  [gonx.NewParser] is missing from the sources. *)
Fixpoint scan (p : Pending) (s : string) : FormatPlan :=
  match s with
  | EmptyString => emit p
  | String c s' =>
      if decide (c = sigil) then emit p ++ scan (InField EmptyString) s'
      else
        match p with
        | InField name =>
            if isIdent c then scan (InField (name +:+ String c EmptyString)) s'
            else Field name :: scan (InLiteral (String c EmptyString)) s'
        | InLiteral text => scan (InLiteral (text +:+ String c EmptyString)) s'
        | NoToken => scan (InLiteral (String c EmptyString)) s'
        end
  end.

Definition tokenize (format : string) : FormatPlan := scan NoToken format.

(** Two Field tokens with no Literal between them. *)
Fixpoint adjacentFields (plan : FormatPlan) : bool :=
  match plan with
  | [] => false
  | t :: rest =>
      match t, rest with
      | Field _, Field _ :: _ => true
      | _, _ => adjacentFields rest
      end
  end.

Record Parser : Type := mkParser {
  format : string;
  plan : FormatPlan
}.

(** Modelled from the spec: compilation of section 4.1, where
    "consecutive Field tokens are illegal ... and must fail compilation
    with a ConfigError".  [gonx.NewParser] is missing from the sources;
    in [main.go] it returns the parser alone, so a failure can only be
    a panic of the caller. *)
Definition NewParser (format : string) : ConfigError + Parser :=
  let plan := tokenize format in
  if adjacentFields plan then inl (AdjacentPlaceholders format)
  else inr (mkParser format plan).

(** *** Matching a line *)

Inductive Reason : Type :=
| LiteralMismatch (at_ : nat)
| PrematureEnd (at_ : nat).

Record ParseError : Type := mkParseError {
  line : string;
  reason : Reason
}.

(** A parsed entry maps field names to raw text (section 3). *)
Abbreviation Entry := (gmap string string).

(** The character that ends a field opened by [c]: a quoted field
    ends at the next quote, a bracketed field at the closing bracket. *)
Definition closing (c : ascii) : option ascii :=
  if decide (c = dquote) then Some dquote
  else if decide (c = "["%char) then Some "]"%char
  else None.

Fixpoint lastChar (s : string) : option ascii :=
  match s with
  | EmptyString => None
  | String c s' =>
      match s' with
      | EmptyString => Some c
      | _ => lastChar s'
      end
  end.

(** What the literal [text] says of the field after it: the closing
    character when [text] ends in a quote or an opening bracket. *)
Definition opens (text : string) : option ascii := lastChar text ≫= closing.

(** Modelled from the spec: the boundary of a field.  Section 4.2: "a
    literal of (a quote or an opening bracket) signals that the
    following field is delimited by the matching closing character
    rather than by the next literal's first character"; otherwise the
    boundary is the first character of the next literal, and the last
    field runs to the end of the line. *)
Definition boundary (opened : option ascii) (rest : FormatPlan)
    : option ascii :=
  match opened with
  | Some close => Some close
  | None =>
      match rest with
      | Literal (String c _) :: _ => Some c
      | _ => None
      end
  end.

Definition consume (opened : option ascii) (rest : FormatPlan)
    (cursor : string) : string * string :=
  match boundary opened rest with
  | Some c => Bytes.splitAt c cursor
  | None => (cursor, EmptyString)
  end.

(** Modelled from the spec: the walk of section 4.2, "for each
    Literal, require the line to contain that exact substring at the
    current cursor position; for each Field, consume characters up to
    the boundary implied by the next Literal (or end of line if the
    Field is last)", up to the first occurrence of that boundary; the
    boundary character itself is left to the literal that follows.
    [opened] is what the literal just matched says of the next field.
    [gonx.Parser.ParseString] is missing from the sources. *)
Fixpoint matchTokens (plan : FormatPlan) (opened : option ascii)
    (cursor : string) (pos : nat) (entry : Entry) : Reason + Entry :=
  match plan with
  | [] => inr entry
  | Literal text :: rest =>
      match Bytes.stripPrefix text cursor with
      | Some cursor' =>
          matchTokens rest (opens text) cursor' (pos + String.length text) entry
      | None =>
          if String.length cursor <? String.length text
          then inl (PrematureEnd pos) else inl (LiteralMismatch pos)
      end
  | Field name :: rest =>
      let '(value, cursor') := consume opened rest cursor in
      matchTokens rest None cursor' (pos + String.length value)
        (<[name := value]> entry)
  end.

Definition ParseString (parser : Parser) (l : string) : ParseError + Entry :=
  match matchTokens (plan parser) None l 0 ∅ with
  | inl r => inl (mkParseError l r)
  | inr entry => inr entry
  end.

(** *** Accessors of an entry *)

Inductive FieldError : Type :=
| FieldAbsent (name : string)
| NotNumeric (name raw : string).

Module Entry.

(** Modelled from the spec: "a mapping from field name to raw string
    value"; the lookup fails when the name is absent.
    [gonx.Entry.Field] is missing from the sources. *)
Definition Field (entry : Entry) (name : string) : FieldError + string :=
  match entry !! name with
  | Some value => inr value
  | None => inl (FieldAbsent name)
  end.

Section Float.
Context {F : Type}.
(** [strconv.ParseFloat] of the Go library, taken as given. *)
Variable ParseFloat : string → option F.

(** Modelled from the spec: "retrieving a field as a floating-point
    number fails with FieldError ... if the raw text is not numeric
    or the field was absent".  [gonx.Entry.FloatField] is missing
    from the sources. *)
Definition FloatField (entry : Entry) (name : string) : FieldError + F :=
  match Field entry name with
  | inl err => inl err
  | inr tmp =>
      match ParseFloat tmp with
      | Some value => inr value
      | None => inl (NotNumeric name tmp)
      end
  end.
End Float.

End Entry.

(** The field names a plan declares. *)
Definition fieldNames (plan : FormatPlan) : list string :=
  omap (λ t, match t with Field name => Some name | Literal _ => None end) plan.

End Gonx.

(** ** Effects of the pipeline

    The pipeline talks to two black boxes: the [log] package and the
    Prometheus client.  A run is the sequence of calls it makes on them
    together with the way it ends. *)

Module Proc.

(** How a computation ends: normally, by [os.Exit] (what [log.Fatalf]
    does after printing), or by a run-time panic. *)
Inductive Res (A : Type) : Type :=
| Ret (a : A)
| Exit
| Panic.
Arguments Ret {A} a.
Arguments Exit {A}.
Arguments Panic {A}.

Section WithCalls.
Context {C : Type}.

Definition t (A : Type) : Type := list C * Res A.

Definition ret {A} (a : A) : t A := ([], Ret a).

Definition bind {A B} (f : A → t B) (m : t A) : t B :=
  match m with
  | (cs, Ret a) => let '(cs', r) := f a in (cs ++ cs', r)
  | (cs, Exit) => (cs, Exit)
  | (cs, Panic) => (cs, Panic)
  end.

Definition call (c : C) : t unit := ([c], Ret tt).
Definition exit {A} : t A := ([], Exit).
Definition panic {A} : t A := ([], Panic).

Definition calls {A} (m : t A) : list C := m.1.
Definition result {A} (m : t A) : Res A := m.2.

End WithCalls.

Global Instance proc_ret {C} : MRet (@t C) := @ret C.
Global Instance proc_bind {C} : MBind (@t C) := @bind C.

End Proc.

(** ** The metric registry *)

Module Prometheus.

(** The eight metric vectors of the [Metrics] struct. *)
Module Vec.
Inductive t : Type :=
| countTotal
| bytesTotal
| upstreamSeconds
| upstreamSecondsHist
| upstreamBytes
| responseSeconds
| responseSecondsHist
| responseBytes.

Global Instance eq_dec : EqDecision t.
Proof. solve_decision. Defined.
End Vec.

Section WithFloat.
Context {F : Type}.

(** Calls made by [processLogFile]. *)
Inductive Call : Type :=
| LogFatalf (line : string) (err : Gonx.ParseError)
| LogPrintf (line : string)
| CounterInc
| VecInc (v : Vec.t) (lvs : list string)
| VecAdd (v : Vec.t) (lvs : list string) (x : F)
| VecObserve (v : Vec.t) (lvs : list string) (x : F).

(** The labelled child a call addresses, if any. *)
Definition target (c : Call) : option (Vec.t * list string) :=
  match c with
  | VecInc v lvs | VecAdd v lvs _ | VecObserve v lvs _ => Some (v, lvs)
  | _ => None
  end.

(** State of one labelled child: how often [Inc] was called on it
    and the values handed to [Add] or [Observe], newest first. *)
Record Child : Type := mkChild {
  incs : nat;
  values : list F
}.

Definition fresh : Child := mkChild 0 [].

(** A vector: the label names it was created with and its children,
    keyed by label values. *)
Record MetricVec : Type := mkVec {
  labelNames : list string;
  children : gmap (list string) Child
}.

Definition NewVec (labels : list string) : MetricVec := mkVec labels ∅.

(** [WithLabelValues]: the child is created on first use. *)
Definition WithLabelValues (v : MetricVec) (lvs : list string) : Child :=
  default fresh (children v !! lvs).

Definition update (v : MetricVec) (lvs : list string) (f : Child → Child)
    : MetricVec :=
  mkVec (labelNames v) (<[lvs := f (WithLabelValues v lvs)]> (children v)).

Definition Inc (c : Child) : Child := mkChild (S (incs c)) (values c).
Definition push (x : F) (c : Child) : Child := mkChild (incs c) (x :: values c).

End WithFloat.

Arguments Call : clear implicits.
Arguments Child : clear implicits.
Arguments MetricVec : clear implicits.

End Prometheus.

(** ** Decimal numbers

    [strconv.ParseFloat] belongs to the Go library; the pipeline is
    verified for an arbitrary parse function.  The worked examples use
    the reading below: an optional sign, digits and at most one point,
    denoting their exact rational value.  Exponents, hexadecimal
    floats, infinities, NaN and the rounding to [float64] are left out. *)

Module Strconv.

Definition digit (c : ascii) : option Z :=
  let n := nat_of_ascii c in
  if (48 <=? n) && (n <=? 57) then Some (Z.of_nat (n - 48)) else None.

Fixpoint readDecimal (s : string) (mant : Z) (scale : positive)
    (dot any : bool) : option (Z * positive) :=
  match s with
  | EmptyString => if any then Some (mant, scale) else None
  | String c s' =>
      if decide (c = "."%char) then
        if dot then None else readDecimal s' mant scale true any
      else
        match digit c with
        | Some d =>
            readDecimal s' (10 * mant + d)
              (if dot then (10 * scale)%positive else scale) dot true
        | None => None
        end
  end.

Definition unsigned (s : string) : option Q :=
  match readDecimal s 0 1 false false with
  | Some (m, sc) => Some (Qmake m sc)
  | None => None
  end.

Definition ParseFloat (s : string) : option Q :=
  match s with
  | String c s' =>
      if decide (c = "-"%char) then Qopp <$> unsigned s'
      else if decide (c = "+"%char) then unsigned s'
      else unsigned s
  | EmptyString => None
  end.

(** [v < 0] *)
Definition negative (v : Q) : bool := (Qnum v <? 0)%Z.

End Strconv.

(** ** [main.go] *)

Module Exporter.
Import Prometheus.

Record ListenConfig : Type := mkListenConfig {
  ListenAddress : string;
  TelemetryPath : string
}.

Record LogConfig : Type := mkLogConfig {
  FileName : string;
  Format : string
}.

Record Config : Type := mkConfig {
  logConfig : LogConfig;
  listenConfig : ListenConfig;
  Labels : gmap string string
}.

(** The [default] tag of [LogConfig.Format]. *)
Definition defaultFormat : string :=
  "$remote_addr - $remote_user [$time_local] " +:+ dq +:+ "$request" +:+ dq
  +:+ " $status $body_bytes_sent " +:+ dq +:+ "$http_referer" +:+ dq
  +:+ " " +:+ dq +:+ "$http_user_agent" +:+ dq
  +:+ " " +:+ dq +:+ "$http_x_forwarded_for" +:+ dq +:+ " $request_time".

Definition defaultConfig : Config :=
  mkConfig (mkLogConfig "/var/log/nginx/access.log" defaultFormat)
           (mkListenConfig "0.0.0.0:4040" "/metrics") ∅.

Section WithFloat.
Context {F : Type}.
(** [strconv.ParseFloat], as used by [FloatField]. *)
Variable ParseFloat : string → option F.
(** [v < 0] on [float64], the test made by [Counter.Add]. *)
Variable negative : F → bool.

Record Metrics : Type := mkMetrics {
  countTotal : MetricVec F;
  bytesTotal : MetricVec F;
  upstreamSeconds : MetricVec F;
  upstreamSecondsHist : MetricVec F;
  upstreamBytes : MetricVec F;
  responseSeconds : MetricVec F;
  responseSecondsHist : MetricVec F;
  responseBytes : MetricVec F;
  parseErrorsTotal : nat
}.

(** [Metrics.Init]: every vector is created with the same two
    label names. *)
Definition Init : Metrics :=
  let labels := replicate 2 EmptyString in
  let labels := <[0 := "status"]> labels in
  let labels := <[1 := "method"]> labels in
  {| countTotal := NewVec labels;
     bytesTotal := NewVec labels;
     upstreamSeconds := NewVec labels;
     upstreamSecondsHist := NewVec labels;
     upstreamBytes := NewVec labels;
     responseSeconds := NewVec labels;
     responseSecondsHist := NewVec labels;
     responseBytes := NewVec labels;
     parseErrorsTotal := 0 |}.

Definition vec (v : Vec.t) (m : Metrics) : MetricVec F :=
  match v with
  | Vec.countTotal => countTotal m
  | Vec.bytesTotal => bytesTotal m
  | Vec.upstreamSeconds => upstreamSeconds m
  | Vec.upstreamSecondsHist => upstreamSecondsHist m
  | Vec.upstreamBytes => upstreamBytes m
  | Vec.responseSeconds => responseSeconds m
  | Vec.responseSecondsHist => responseSecondsHist m
  | Vec.responseBytes => responseBytes m
  end.

Definition setVec (v : Vec.t) (x : MetricVec F) (m : Metrics) : Metrics :=
  match v with
  | Vec.countTotal =>
      mkMetrics x (bytesTotal m) (upstreamSeconds m) (upstreamSecondsHist m)
        (upstreamBytes m) (responseSeconds m) (responseSecondsHist m)
        (responseBytes m) (parseErrorsTotal m)
  | Vec.bytesTotal =>
      mkMetrics (countTotal m) x (upstreamSeconds m) (upstreamSecondsHist m)
        (upstreamBytes m) (responseSeconds m) (responseSecondsHist m)
        (responseBytes m) (parseErrorsTotal m)
  | Vec.upstreamSeconds =>
      mkMetrics (countTotal m) (bytesTotal m) x (upstreamSecondsHist m)
        (upstreamBytes m) (responseSeconds m) (responseSecondsHist m)
        (responseBytes m) (parseErrorsTotal m)
  | Vec.upstreamSecondsHist =>
      mkMetrics (countTotal m) (bytesTotal m) (upstreamSeconds m) x
        (upstreamBytes m) (responseSeconds m) (responseSecondsHist m)
        (responseBytes m) (parseErrorsTotal m)
  | Vec.upstreamBytes =>
      mkMetrics (countTotal m) (bytesTotal m) (upstreamSeconds m)
        (upstreamSecondsHist m) x (responseSeconds m)
        (responseSecondsHist m) (responseBytes m) (parseErrorsTotal m)
  | Vec.responseSeconds =>
      mkMetrics (countTotal m) (bytesTotal m) (upstreamSeconds m)
        (upstreamSecondsHist m) (upstreamBytes m) x
        (responseSecondsHist m) (responseBytes m) (parseErrorsTotal m)
  | Vec.responseSecondsHist =>
      mkMetrics (countTotal m) (bytesTotal m) (upstreamSeconds m)
        (upstreamSecondsHist m) (upstreamBytes m) (responseSeconds m) x
        (responseBytes m) (parseErrorsTotal m)
  | Vec.responseBytes =>
      mkMetrics (countTotal m) (bytesTotal m) (upstreamSeconds m)
        (upstreamSecondsHist m) (upstreamBytes m) (responseSeconds m)
        (responseSecondsHist m) x (parseErrorsTotal m)
  end.

(** The effect of one call on the registry; logging leaves it alone. *)
Definition apply (m : Metrics) (c : Call F) : Metrics :=
  match c with
  | LogFatalf _ _ | LogPrintf _ => m
  | CounterInc =>
      mkMetrics (countTotal m) (bytesTotal m) (upstreamSeconds m)
        (upstreamSecondsHist m) (upstreamBytes m) (responseSeconds m)
        (responseSecondsHist m) (responseBytes m) (S (parseErrorsTotal m))
  | VecInc v lvs => setVec v (update (vec v m) lvs Inc) m
  | VecAdd v lvs x | VecObserve v lvs x =>
      setVec v (update (vec v m) lvs (push x)) m
  end.

Definition exec (m : Metrics) (cs : list (Call F)) : Metrics :=
  foldl apply m cs.

(** The value a labelled child of vector [v] holds. *)
Definition child (v : Vec.t) (lvs : list string) (m : Metrics) : Child F :=
  WithLabelValues (vec v m) lvs.

(** *** The loop body of [processLogFile] *)

Abbreviation Proc := (@Proc.t (Call F)).

Definition log_Fatalf (line : string) (err : Gonx.ParseError) : Proc unit :=
  Proc.call (LogFatalf line err) ;; Proc.exit.

Definition log_Printf (line : string) : Proc unit :=
  Proc.call (LogPrintf line).

(** [Counter.Add] of the Prometheus client: a counter cannot go down,
    so a negative value is a panic and the counter is left alone. *)
Definition Add (v : Vec.t) (lvs : list string) (x : F) : Proc unit :=
  if negative x then Proc.panic else Proc.call (VecAdd v lvs x).

(** [s[i]] on a slice: a run-time panic when out of range. *)
Definition index (s : list string) (i : nat) : Proc string :=
  match s !! i with
  | Some x => mret x
  | None => Proc.panic
  end.

Definition labelValuesOf (entry : Gonx.Entry) : Proc (list string) :=
  let labelValues := replicate 2 EmptyString in
  labelValues ←
    match Gonx.Entry.Field entry "status" with
    | inr status => mret (<[0 := status]> labelValues)
    | inl _ => mret labelValues
    end;
  match Gonx.Entry.Field entry "request" with
  | inr request =>
      let chunks := GoStrings.Fields request in
      c ← index chunks 0;
      mret (<[1 := c]> labelValues)
  | inl _ => mret labelValues
  end.

Definition processLine (parser : Gonx.Parser) (line : string) : Proc unit :=
  match Gonx.ParseString parser line with
  | inl err =>
      log_Fatalf line err ;;
      Proc.call CounterInc ;;
      mret tt
  | inr entry =>
      labelValues ← labelValuesOf entry;
      log_Printf line ;;
      Proc.call (VecInc Vec.countTotal labelValues) ;;
      match Gonx.Entry.FloatField ParseFloat entry "body_bytes_sent" with
      | inr bytes => Add Vec.bytesTotal labelValues bytes
      | inl _ => mret tt
      end ;;
      match Gonx.Entry.FloatField ParseFloat entry "upstream_response_time" with
      | inr upstreamTime =>
          Proc.call (VecObserve Vec.upstreamSeconds labelValues upstreamTime) ;;
          Proc.call (VecObserve Vec.upstreamSecondsHist labelValues upstreamTime)
      | inl _ => mret tt
      end ;;
      match Gonx.Entry.FloatField ParseFloat entry "request_time" with
      | inr responseTime =>
          Proc.call (VecObserve Vec.responseSeconds labelValues responseTime) ;;
          Proc.call (VecObserve Vec.responseSecondsHist labelValues responseTime)
      | inl _ => mret tt
      end
  end.

(** [processLogFile] over the lines the follower delivers; [cfg] is
    passed along and not used, as in the source. *)
Fixpoint processLogFile (cfg : Config) (parser : Gonx.Parser)
    (lines : list string) : Proc unit :=
  match lines with
  | [] => mret tt
  | line :: rest =>
      processLine parser line ;; processLogFile cfg parser rest
  end.

(** [main]: the parser is built once, before any line is read, and
    handed to [processLogFile].  In the source [gonx.NewParser] hands
    back the parser alone and [main] has no branch on its outcome; the
    compiler of section 4.1 can fail, and the first branch below says
    what the model takes [main] to do then, the call not returning.
    The source does not settle this case, and no property below rests
    on it. *)
Definition main (cfg : Config) (lines : list string) : Proc unit :=
  match Gonx.NewParser (Format (logConfig cfg)) with
  | inl _ => Proc.panic
  | inr parser => processLogFile cfg parser lines
  end.

End WithFloat.

Arguments Metrics : clear implicits.

End Exporter.

(** ** Notions used to state the properties *)

Module FormatSpec.
Import Gonx.

(** Two Field tokens with nothing between them, as a proposition. *)
Definition AdjacentFields (plan : FormatPlan) : Prop :=
  ∃ pre a b post, plan = pre ++ Field a :: Field b :: post.

(** A plan the compiler accepts: no adjacent fields, no empty literal. *)
Definition nonEmpty (t : FormatToken) : Prop := t ≠ Literal EmptyString.

(** *** Templates as text *)

(** The text of a template given by its parts: a literal stands for
    itself, a placeholder is the sigil followed by its name. *)
Fixpoint show (ps : FormatPlan) : string :=
  match ps with
  | [] => EmptyString
  | Literal text :: rest => text +:+ show rest
  | Field name :: rest => String sigil name +:+ show rest
  end.

Fixpoint allIdent (s : string) : bool :=
  match s with
  | EmptyString => true
  | String c s' => isIdent c && allIdent s'
  end.

Definition startsIdent (s : string) : bool :=
  match s with
  | String c _ => isIdent c
  | EmptyString => false
  end.

(** The parts are those one reads off the text: a literal is not
    empty, holds no sigil and is not followed by another literal; a
    name is made of identifier characters, and the literal after it
    does not go on with one. *)
Fixpoint wellFormed (ps : FormatPlan) : bool :=
  match ps with
  | [] => true
  | Literal text :: rest =>
      negb (bool_decide (text = EmptyString))
      && negb (Bytes.mem sigil text)
      && match rest with Literal _ :: _ => false | _ => true end
      && wellFormed rest
  | Field name :: rest =>
      allIdent name
      && match rest with
         | Literal text :: _ => negb (startsIdent text)
         | _ => true
         end
      && wellFormed rest
  end.

(** What the scan has accumulated is a part under construction of the
    right shape. *)
Definition goodPending (p : Pending) : Prop :=
  match p with
  | NoToken => True
  | InLiteral text => text ≠ EmptyString ∧ Bytes.mem sigil text = false
  | InField name => allIdent name = true
  end.

(** *** Lines generated from a template *)





End FormatSpec.

Module LineSpec.
Import Prometheus Exporter.

(** The label set as section 4.4 words it: the status value, or the
    empty string when absent; the first white-space delimited token
    of the request, or the empty string when absent or empty. *)
Definition statusLabel (entry : Gonx.Entry) : string :=
  default EmptyString (entry !! "status").

Definition methodLabel (entry : Gonx.Entry) : string :=
  match entry !! "request" with
  | Some request => default EmptyString (head (GoStrings.Fields request))
  | None => EmptyString
  end.

Definition LabelSet (entry : Gonx.Entry) : list string :=
  [statusLabel entry; methodLabel entry].

(** The request field is there and holds no token. *)
Definition tokenless (entry : Gonx.Entry) : bool :=
  match entry !! "request" with
  | Some request => bool_decide (GoStrings.Fields request = [])
  | None => false
  end.

Section WithFloat.
Context {F : Type}.
Variable ParseFloat : string → option F.
Variable negative : F → bool.

(** The body size is a negative number: [Counter.Add] panics on it. *)
Definition bytesPanic (entry : Gonx.Entry) : bool :=
  match Gonx.Entry.FloatField ParseFloat entry "body_bytes_sent" with
  | inr bytes => negative bytes
  | inl _ => false
  end.

(** What each numeric field contributes, given the label values. *)
Definition bytesCalls (entry : Gonx.Entry) (lv : list string)
    : list (Call F) :=
  match Gonx.Entry.FloatField ParseFloat entry "body_bytes_sent" with
  | inr bytes => [VecAdd Vec.bytesTotal lv bytes]
  | inl _ => []
  end.

Definition upstreamCalls (entry : Gonx.Entry) (lv : list string)
    : list (Call F) :=
  match Gonx.Entry.FloatField ParseFloat entry "upstream_response_time" with
  | inr t => [VecObserve Vec.upstreamSeconds lv t;
              VecObserve Vec.upstreamSecondsHist lv t]
  | inl _ => []
  end.

Definition responseCalls (entry : Gonx.Entry) (lv : list string)
    : list (Call F) :=
  match Gonx.Entry.FloatField ParseFloat entry "request_time" with
  | inr t => [VecObserve Vec.responseSeconds lv t;
              VecObserve Vec.responseSecondsHist lv t]
  | inl _ => []
  end.

(** A call that leaves the two upstream-time vectors alone. *)
Definition upstreamFree (c : Call F) : Prop :=
  ∀ lvs, target c ≠ Some (Vec.upstreamSeconds, lvs)
         ∧ target c ≠ Some (Vec.upstreamSecondsHist, lvs).

(** The calls of a line that address a metric vector all carry the
    tuple [lv], and the vector was created with the label names
    [status] and [method], in this order. *)
Definition labelled (lv : list string) (c : Call F) : Prop :=
  match target c with
  | None => True
  | Some (v, lvs) =>
      lvs = lv ∧ labelNames (vec v (Init (F := F))) = ["status"; "method"]
  end.

End WithFloat.
End LineSpec.

(** ** Worked inputs *)

Import Prometheus Exporter.

(** [$status "$request"] *)
Definition statusRequestFormat : string :=
  "$status " +:+ dq +:+ "$request" +:+ dq.

(** [$status "$request" $body_bytes_sent $request_time] *)
Definition numericFormat : string :=
  statusRequestFormat +:+ " $body_bytes_sent $request_time".

(** A request nginx logs when the client sent nothing: the request
    field is the empty string between its quotes. *)
Definition emptyRequestLine : string :=
  "1.2.3.4 - - [31/Oct/2026:00:00:00 +0000] " +:+ dq +:+ dq
  +:+ " 400 0 " +:+ dq +:+ "-" +:+ dq +:+ " " +:+ dq +:+ "-" +:+ dq
  +:+ " " +:+ dq +:+ "-" +:+ dq +:+ " 0.000".

(** The fields of [emptyRequestLine] under the default format. *)
Definition emptyRequestEntry : Gonx.Entry :=
  {[ "remote_addr" := "1.2.3.4"; "remote_user" := "-";
     "time_local" := "31/Oct/2026:00:00:00 +0000";
     "request" := EmptyString; "status" := "400"; "body_bytes_sent" := "0";
     "http_referer" := "-"; "http_user_agent" := "-";
     "http_x_forwarded_for" := "-"; "request_time" := "0.000" ]}.





(** The parser of the template [$status $request_time]. *)
Definition statusTimeParser : Gonx.Parser :=
  Gonx.mkParser "$status $request_time" (Gonx.tokenize "$status $request_time").

(** The parser of [statusRequestFormat]. *)
Definition statusRequestParser : Gonx.Parser :=
  Gonx.mkParser statusRequestFormat (Gonx.tokenize statusRequestFormat).

(** A line under [numericFormat] whose body size is negative. *)
Definition negativeBytesLine : string :=
  "200 " +:+ dq +:+ "GET / HTTP/1.1" +:+ dq +:+ " -5 0.005".

(** The fields of the line [200 0.123] under [statusTimeParser]. *)
Definition statusTimeEntry : Gonx.Entry :=
  {[ "status" := "200"; "request_time" := "0.123" ]}.

(** ** Notions used to state properties of whole runs *)

Module RunSpec.
Import Prometheus Exporter.

(** No byte of [s] is white space. *)
Fixpoint spaceFree (s : string) : bool :=
  match s with
  | EmptyString => true
  | String c s' => negb (GoStrings.asciiSpace c) && spaceFree s'
  end.

Section WithFloat.
Context {F : Type}.

(** Under every label tuple the summary and the histogram of the
    upstream time hold the same observations, and so do the two of the
    response time. *)
Definition paired (m : Metrics F) : Prop :=
  ∀ lvs,
    values (child Vec.upstreamSeconds lvs m)
      = values (child Vec.upstreamSecondsHist lvs m)
    ∧ values (child Vec.responseSeconds lvs m)
      = values (child Vec.responseSecondsHist lvs m).

(** [metrics.countTotal.WithLabelValues(...).Inc()] *)
Definition isCount (c : Call F) : bool :=
  match c with
  | VecInc Vec.countTotal _ => true
  | _ => false
  end.

(** [log.Printf("Parsed line ...")] *)
Definition isParsedLog (c : Call F) : bool :=
  match c with
  | LogPrintf _ => true
  | _ => false
  end.

Definition countIf (p : Call F → bool) (cs : list (Call F)) : nat :=
  length (List.filter p cs).

End WithFloat.

(** The label set of a line that gets as far as the request counter:
    the line is matched and its request, if any, holds a token. *)
Definition lineLabels (parser : Gonx.Parser) (line : string)
    : option (list string) :=
  match Gonx.ParseString parser line with
  | inr entry =>
      if LineSpec.tokenless entry then None else Some (LineSpec.LabelSet entry)
  | inl _ => None
  end.

(** How many of [lines] carry the label set [lvs]. *)
Definition withLabels (parser : Gonx.Parser) (lvs : list string)
    (lines : list string) : nat :=
  length (List.filter
            (λ line, bool_decide (lineLabels parser line = Some lvs)) lines).

Section Handled.
Context {F : Type}.
Variable ParseFloat : string → option F.
Variable negative : F → bool.

(** The line is handled to its end: it gets as far as the request
    counter and its body size, when a number, is not negative. *)
Definition handled (parser : Gonx.Parser) (line : string) : bool :=
  match Gonx.ParseString parser line with
  | inr entry =>
      negb (LineSpec.tokenless entry)
      && negb (LineSpec.bytesPanic ParseFloat negative entry)
  | inl _ => false
  end.

(** The lines up to the first one that is not handled to its end. *)
Fixpoint handledPrefix (parser : Gonx.Parser) (lines : list string)
    : list string :=
  match lines with
  | [] => []
  | line :: rest =>
      if handled parser line then line :: handledPrefix parser rest else []
  end.

(** The lines that get as far as the request counter: the handled
    prefix, and the line after it when that one is counted before the
    run ends on its body size. *)
Fixpoint countedPrefix (parser : Gonx.Parser) (lines : list string)
    : list string :=
  match lines with
  | [] => []
  | line :: rest =>
      if handled parser line then line :: countedPrefix parser rest
      else
        match lineLabels parser line with
        | Some _ => [line]
        | None => []
        end
  end.

End Handled.

End RunSpec.

(** * Properties *)

(** ** Byte strings *)

Module BytesFacts.
Import Bytes.

Lemma app_nil (t : string) : EmptyString +:+ t = t.
Proof. reflexivity. Qed.

Lemma app_cons (c : ascii) (s t : string) :
  String c s +:+ t = String c (s +:+ t).
Proof. reflexivity. Qed.

Lemma app_empty_r (s : string) : s +:+ EmptyString = s.
Proof. induction s as [|c s IH]; [done | by rewrite app_cons, IH]. Qed.

Lemma app_assoc (a b c : string) : (a +:+ b) +:+ c = a +:+ (b +:+ c).
Proof. induction a as [|x a IH]; [done | by rewrite !app_cons, IH]. Qed.

Lemma length_app (a b : string) :
  String.length (a +:+ b) = String.length a + String.length b.
Proof.
  induction a as [|x a IH]; [done |].
  rewrite app_cons. simpl. by rewrite IH.
Qed.

Lemma mem_app (c : ascii) (a b : string) :
  mem c (a +:+ b) = mem c a || mem c b.
Proof.
  induction a as [|x a IH]; [done |].
  rewrite app_cons. simpl. by destruct (decide (c = x)).
Qed.


Lemma stripPrefix_Some (p s r : string) :
  stripPrefix p s = Some r → s = p +:+ r.
Proof.
  revert s; induction p as [|c p IH]; intros s; simpl.
  - by intros [= ->].
  - destruct s as [|d s]; [done |].
    destruct (decide (c = d)) as [<-|]; [| done].
    intros Hs. by rewrite app_cons, <- (IH _ Hs).
Qed.



Lemma splitAt_app (c : ascii) (s v r : string) :
  splitAt c s = (v, r) → s = v +:+ r ∧ mem c v = false.
Proof.
  revert v r; induction s as [|d s IH]; intros v r; simpl.
  - by intros [= <- <-].
  - destruct (decide (c = d)) as [|Hne].
    + by intros [= <- <-].
    + destruct (splitAt c s) as [v' r'] eqn:E.
      intros [= <- <-]. destruct (IH _ _ eq_refl) as [Hs Hm].
      split; [by rewrite app_cons, <- Hs |].
      simpl. by rewrite decide_False.
Qed.

End BytesFacts.

(** ** Runs *)

Module ProcFacts.
Import Proc.

Section WithCalls.
Context {C : Type}.

Lemma bind_calls_prefix {A B} (f : A → @t C B) (m : @t C A) :
  calls m `prefix_of` calls (bind f m).
Proof.
  destruct m as [cs [a| |]]; simpl; try done.
  destruct (f a) as [cs' r]. by apply prefix_app_r.
Qed.

Lemma Forall_calls_bind {A B} (P : C → Prop) (f : A → @t C B) (m : @t C A) :
  Forall P (calls m) →
  (∀ a, Forall P (calls (f a))) →
  Forall P (calls (bind f m)).
Proof.
  intros Hm Hf. destruct m as [cs [a| |]]; simpl in *; try done.
  specialize (Hf a). destruct (f a) as [cs' r]. simpl in *.
  by apply Forall_app.
Qed.

End WithCalls.
End ProcFacts.

(** ** Labelled children *)

Module PrometheusFacts.
Import Prometheus.

Section WithFloat.
Context {F : Type}.
Implicit Types (v : MetricVec F) (f : Child F → Child F).

Lemma WithLabelValues_update v lvs f :
  WithLabelValues (update v lvs f) lvs = f (WithLabelValues v lvs).
Proof. unfold WithLabelValues, update; simpl. by rewrite lookup_insert_eq. Qed.

Lemma WithLabelValues_update_ne v lvs lvs' f :
  lvs ≠ lvs' →
  WithLabelValues (update v lvs f) lvs' = WithLabelValues v lvs'.
Proof.
  intros Hne. unfold WithLabelValues, update; simpl.
  by rewrite lookup_insert_ne.
Qed.

Lemma labelNames_update v lvs f : labelNames (update v lvs f) = labelNames v.
Proof. done. Qed.

End WithFloat.
End PrometheusFacts.

(** ** The effect monad on the registry *)

Section RegistryFacts.
Context {F : Type}.
Implicit Types (m : Exporter.Metrics F) (cs : list (Prometheus.Call F)).
Import Prometheus PrometheusFacts Exporter.

Lemma exec_cons m (c : Call F) cs : exec m (c :: cs) = exec (apply m c) cs.
Proof. reflexivity. Qed.

Lemma exec_app m cs cs' : exec (exec m cs) cs' = exec m (cs ++ cs').
Proof. unfold exec. by rewrite foldl_app. Qed.

Lemma vec_setVec v x m : vec v (setVec v x m) = x.
Proof. by destruct v. Qed.

Lemma vec_setVec_ne v w x m : v ≠ w → vec w (setVec v x m) = vec w m.
Proof. by destruct v, w. Qed.

Lemma parseErrorsTotal_setVec v x m :
  parseErrorsTotal (setVec v x m) = parseErrorsTotal m.
Proof. by destruct v. Qed.

(** A call that does not address vector [v] leaves it alone. *)
Lemma vec_apply_other v m (c : Call F) :
  (∀ lvs, target c ≠ Some (v, lvs)) → vec v (apply m c) = vec v m.
Proof.
  intros Hc. destruct c as [| | |w lvs|w lvs x|w lvs x]; simpl;
    try by destruct v.
  all: apply vec_setVec_ne; intros ->; by apply (Hc lvs).
Qed.

Lemma vec_exec_other v m cs :
  Forall (λ c, ∀ lvs, target c ≠ Some (v, lvs)) cs →
  vec v (exec m cs) = vec v m.
Proof.
  revert m. induction cs as [|c cs IH]; intros m Hcs; [done |].
  inversion_clear Hcs as [|? ? Hc Hrest].
  rewrite exec_cons, (IH _ Hrest). by apply vec_apply_other.
Qed.

(** A call that does not address the child [(v, lvs)] leaves it alone. *)
Lemma child_apply_other v lvs m (c : Call F) :
  target c ≠ Some (v, lvs) → child v lvs (apply m c) = child v lvs m.
Proof.
  intros Hc. unfold child.
  destruct c as [| | |w l|w l x|w l x]; simpl; try by destruct v.
  all: destruct (decide (w = v)) as [->|Hne];
    [ rewrite vec_setVec; apply WithLabelValues_update_ne;
      intros ->; by apply Hc
    | by rewrite vec_setVec_ne ].
Qed.

Lemma child_exec_other v lvs m cs :
  Forall (λ c, target c ≠ Some (v, lvs)) cs →
  child v lvs (exec m cs) = child v lvs m.
Proof.
  revert m. induction cs as [|c cs IH]; intros m Hcs; [done |].
  inversion_clear Hcs as [|? ? Hc Hrest].
  rewrite exec_cons, (IH _ Hrest). by apply child_apply_other.
Qed.

Lemma parseErrorsTotal_exec m cs :
  Forall (λ c, c ≠ CounterInc) cs →
  parseErrorsTotal (exec m cs) = parseErrorsTotal m.
Proof.
  revert m. induction cs as [|c cs IH]; intros m Hcs; [done |].
  inversion_clear Hcs as [|? ? Hc Hrest].
  rewrite exec_cons, (IH _ Hrest).
  destruct c; simpl; try done; by rewrite parseErrorsTotal_setVec.
Qed.

Lemma child_apply_VecInc v lvs m :
  child v lvs (apply m (VecInc v lvs)) = Inc (child v lvs m).
Proof. unfold child. simpl. by rewrite vec_setVec, WithLabelValues_update. Qed.

Lemma child_apply_push v lvs x m :
  child v lvs (apply m (VecObserve v lvs x)) = push x (child v lvs m)
  ∧ child v lvs (apply m (VecAdd v lvs x)) = push x (child v lvs m).
Proof.
  unfold child. simpl. by rewrite vec_setVec, WithLabelValues_update.
Qed.
End RegistryFacts.

(** ** The format compiler and the line matcher *)

Module GonxFacts.
Import Gonx FormatSpec.

Lemma adjacentFields_spec (plan : FormatPlan) :
  adjacentFields plan = true ↔ AdjacentFields plan.
Proof.
  split.
  - induction plan as [|t rest IH]; [done |].
    destruct t as [text|a].
    + simpl. intros H. destruct (IH H) as (pre & a & b & post & ->).
      by exists (Literal text :: pre), a, b, post.
    + destruct rest as [|[text|b] rest'].
      * done.
      * intros H. destruct (IH H) as (pre & a' & b & post & ->).
        by exists (Field a :: pre), a', b, post.
      * intros _. by exists [], a, b, rest'.
  - intros (pre & a & b & post & ->).
    induction pre as [|t pre IH]; [done |].
    destruct t as [text|c]; [exact IH |].
    simpl. destruct (pre ++ Field a :: Field b :: post) as [|[]]; done.
Qed.

Lemma snoc_nonempty (s : string) (c : ascii) :
  s +:+ String c EmptyString ≠ EmptyString.
Proof. by destruct s. Qed.

Lemma scan_nonEmpty (p : Pending) (s : string) :
  p ≠ InLiteral EmptyString → Forall nonEmpty (scan p s).
Proof.
  revert p. induction s as [|c s IH]; intros p Hp; simpl.
  - destruct p; repeat constructor; unfold nonEmpty; congruence.
  - destruct (decide (c = sigil)).
    + apply Forall_app. split; [| by apply IH].
      destruct p; repeat constructor; unfold nonEmpty; congruence.
    + destruct p as [|text|name].
      * by apply IH.
      * apply IH. intros [= H]. by apply snoc_nonempty in H.
      * destruct (isIdent c); [by apply IH |].
        constructor; [done | by apply IH].
Qed.

Lemma NewParser_plan (format : string) (parser : Parser) :
  NewParser format = inr parser →
  plan parser = tokenize format
  ∧ adjacentFields (plan parser) = false
  ∧ Forall nonEmpty (plan parser).
Proof.
  unfold NewParser. destruct (adjacentFields (tokenize format)) eqn:E; [done |].
  intros [= <-]. simpl. split_and!; [done | done |].
  by apply scan_nonEmpty.
Qed.

(** *** The scan reads a template back from its text *)






Lemma show_app (ps qs : FormatPlan) : show (ps ++ qs) = show ps +:+ show qs.
Proof.
  induction ps as [|[text|name] ps IH]; [done | |]; simpl.
  - by rewrite IH, BytesFacts.app_assoc.
  - by rewrite IH, !BytesFacts.app_cons, BytesFacts.app_assoc.
Qed.

(** Every text is the text of the parts the scan finds in it. *)
Lemma show_scan (p : Pending) (s : string) :
  show (scan p s) = show (emit p) +:+ s.
Proof.
  revert p. induction s as [|c s IH]; intros p; simpl.
  - by rewrite BytesFacts.app_empty_r.
  - destruct (decide (c = sigil)) as [->|Hc].
    + rewrite show_app, IH. simpl.
      by rewrite !BytesFacts.app_empty_r.
    + destruct p as [|text|name].
      * rewrite IH. simpl. by rewrite BytesFacts.app_empty_r.
      * rewrite IH. simpl.
        by rewrite !BytesFacts.app_empty_r, BytesFacts.app_assoc.
      * destruct (isIdent c).
        -- rewrite IH. simpl.
           by rewrite !BytesFacts.app_empty_r, !BytesFacts.app_cons,
             BytesFacts.app_assoc.
        -- simpl. rewrite IH. simpl.
           by rewrite !BytesFacts.app_empty_r, !BytesFacts.app_cons.
Qed.

Lemma show_tokenize (format : string) : show (tokenize format) = format.
Proof. unfold tokenize. by rewrite show_scan. Qed.

(** The parts the scan finds are well formed. *)
Lemma allIdent_snoc (name : string) (c : ascii) :
  allIdent name = true → isIdent c = true →
  allIdent (name +:+ String c EmptyString) = true.
Proof.
  intros Hn Hc. induction name as [|d name IH]; simpl in *.
  - by rewrite Hc.
  - apply andb_prop in Hn as [Hd Hn]. by rewrite Hd, (IH Hn).
Qed.

Lemma mem_sigil_snoc (text : string) (c : ascii) :
  Bytes.mem sigil text = false → c ≠ sigil →
  Bytes.mem sigil (text +:+ String c EmptyString) = false.
Proof.
  intros Ht Hc. rewrite BytesFacts.mem_app, Ht. simpl.
  by rewrite decide_False by congruence.
Qed.

Lemma startsIdent_app (text more : string) :
  text ≠ EmptyString → startsIdent (text +:+ more) = startsIdent text.
Proof. by destruct text. Qed.

Lemma wellFormed_emit (p : Pending) (name : string) (rest : FormatPlan) :
  goodPending p →
  wellFormed (Field name :: rest) = true →
  wellFormed (emit p ++ Field name :: rest) = true.
Proof.
  intros Hp Hwf. destruct p as [|text|n]; [done | |].
  - destruct Hp as [Hne Hs]. cbn [emit app].
    change (wellFormed (Literal text :: Field name :: rest))
      with (negb (bool_decide (text = EmptyString))
            && negb (Bytes.mem sigil text) && true
            && wellFormed (Field name :: rest)).
    rewrite Hs, Hwf, bool_decide_false by done. done.
  - simpl in Hp. cbn [emit app].
    change (wellFormed (Field n :: Field name :: rest))
      with (allIdent n && true && wellFormed (Field name :: rest)).
    by rewrite Hp, Hwf.
Qed.

Lemma wellFormed_scan (s : string) (p : Pending) :
  goodPending p →
  wellFormed (scan p s) = true
  ∧ match p with
    | NoToken => True
    | InLiteral text =>
        ∃ more rest, scan p s = Literal (text +:+ more) :: rest
    | InField name => ∃ name' rest, scan p s = Field name' :: rest
    end.
Proof.
  revert p. induction s as [|c s IH]; intros p Hp.
  - destruct p as [|text|name]; simpl.
    + done.
    + destruct Hp as [Hne Hs]. split.
      * by rewrite Hs, bool_decide_false by done.
      * exists EmptyString, []. by rewrite BytesFacts.app_empty_r.
    + simpl in Hp. split; [by rewrite Hp | by eexists _, _].
  - simpl. destruct (decide (c = sigil)) as [->|Hc].
    + destruct (IH (InField EmptyString) eq_refl) as [Hwf (n & r & Hs)].
      rewrite Hs in *. split; [by apply wellFormed_emit |].
      destruct p as [|text|name]; [done | |]; simpl.
      * exists EmptyString. eexists. by rewrite BytesFacts.app_empty_r.
      * by eexists _, _.
    + destruct p as [|text|name].
      * assert (goodPending (InLiteral (String c EmptyString))) as Hg.
        { split; [done |]. simpl. by rewrite decide_False by congruence. }
        by destruct (IH _ Hg) as [Hwf _].
      * destruct Hp as [Hne Hs].
        assert (goodPending (InLiteral (text +:+ String c EmptyString)))
          as Hg.
        { split; [apply snoc_nonempty | by apply mem_sigil_snoc]. }
        destruct (IH _ Hg) as [Hwf (more & r & Hsc)].
        split; [done |].
        exists (String c more), r.
        by rewrite Hsc, BytesFacts.app_assoc.
      * simpl in Hp. destruct (isIdent c) eqn:Hid.
        -- destruct (IH (InField (name +:+ String c EmptyString))
                       (allIdent_snoc _ _ Hp Hid)) as [Hwf Hhead].
           done.
        -- assert (goodPending (InLiteral (String c EmptyString))) as Hg.
           { split; [done |]. simpl. by rewrite decide_False by congruence. }
           destruct (IH _ Hg) as [Hwf (more & r & Hsc)].
           split; [| by eexists _, _].
           rewrite Hsc in *.
           change (wellFormed
                     (Field name :: Literal (String c EmptyString +:+ more) :: r))
             with (allIdent name
                   && negb (startsIdent (String c EmptyString +:+ more))
                   && wellFormed (Literal (String c EmptyString +:+ more) :: r)).
           rewrite Hp, Hwf, startsIdent_app by done. simpl. by rewrite Hid.
Qed.

(** Every format is the text of well-formed parts: those the scan
    finds in it. *)
Lemma every_format_has_parts (format : string) :
  wellFormed (tokenize format) = true ∧ show (tokenize format) = format.
Proof.
  split; [| apply show_tokenize].
  by destruct (wellFormed_scan format NoToken I) as [? _].
Qed.

(** *** Matching a generated line *)



(** *** Names of a matched entry *)

Lemma matchTokens_other plan opened cursor pos (entry entry' : Entry)
    (n : string) :
  matchTokens plan opened cursor pos entry = inr entry' →
  n ∉ fieldNames plan →
  entry' !! n = entry !! n.
Proof.
  revert opened cursor pos entry.
  induction plan as [|[text|name] rest IH];
    intros opened cursor pos entry; simpl.
  - by intros [= ->].
  - destruct (Bytes.stripPrefix text cursor); [apply IH |].
    by destruct (String.length cursor <? String.length text).
  - destruct (consume opened rest cursor) as [value cursor'].
    change (fieldNames (Field name :: rest)) with (name :: fieldNames rest).
    intros Hm Hn. apply not_elem_of_cons in Hn as [Hne Hn].
    rewrite (IH _ _ _ _ Hm Hn). by apply lookup_insert_ne.
Qed.

Lemma ParseString_absent parser l (entry : Entry) (n : string) :
  ParseString parser l = inr entry →
  n ∉ fieldNames (plan parser) →
  entry !! n = None.
Proof.
  unfold ParseString.
  destruct (matchTokens (plan parser) None l 0 ∅) as [r|e] eqn:E; [done |].
  intros [= <-] Hn. by rewrite (matchTokens_other _ _ _ _ _ _ _ E Hn).
Qed.

End GonxFacts.
(** ** The loop body, line by line *)

Module PipelineFacts.
Import Prometheus Exporter LineSpec.

Section WithFloat.
Context {F : Type}.
Variable ParseFloat : string → option F.
Variable negative : F → bool.

Ltac run := unfold mbind, mret, Proc.proc_bind, Proc.proc_ret,
  Proc.bind, Proc.ret, Proc.call, Proc.exit, Proc.panic; simpl.

Lemma labelValuesOf_eq (entry : Gonx.Entry) :
  labelValuesOf (F := F) entry =
    if tokenless entry then ([], Proc.Panic)
    else ([], Proc.Ret (LabelSet entry)).
Proof.
  unfold labelValuesOf, tokenless, LabelSet, statusLabel, methodLabel,
    Gonx.Entry.Field, index.
  destruct (entry !! "status") as [status|];
    destruct (entry !! "request") as [request|]; run; try done.
  all: by destruct (GoStrings.Fields request) as [|c chunks]; run.
Qed.

Lemma processLine_rejected parser line err :
  Gonx.ParseString parser line = inl err →
  processLine ParseFloat negative parser line
    = ([LogFatalf line err], Proc.Exit).
Proof. intros H. unfold processLine. by rewrite H. Qed.

(** The calls of a matched line: nothing when the request holds no
    token; the log message and the count alone when the body size is
    negative; otherwise these two and what the numeric fields add. *)
Lemma processLine_matched parser line (entry : Gonx.Entry) :
  Gonx.ParseString parser line = inr entry →
  processLine ParseFloat negative parser line =
    if tokenless entry then ([], Proc.Panic)
    else if bytesPanic ParseFloat negative entry then
      ([LogPrintf line; VecInc Vec.countTotal (LabelSet entry)], Proc.Panic)
    else ([LogPrintf line; VecInc Vec.countTotal (LabelSet entry)]
            ++ bytesCalls ParseFloat entry (LabelSet entry)
            ++ upstreamCalls ParseFloat entry (LabelSet entry)
            ++ responseCalls ParseFloat entry (LabelSet entry), Proc.Ret tt).
Proof.
  intros H. unfold processLine. rewrite H.
  unfold mbind at 1. unfold Proc.proc_bind.
  rewrite labelValuesOf_eq. destruct (tokenless entry); [done |].
  unfold bytesPanic, bytesCalls, upstreamCalls, responseCalls, Add.
  destruct (Gonx.Entry.FloatField ParseFloat entry "body_bytes_sent")
    as [|bytes]; [| destruct (negative bytes)];
    destruct (Gonx.Entry.FloatField ParseFloat entry "upstream_response_time");
    destruct (Gonx.Entry.FloatField ParseFloat entry "request_time");
    reflexivity.
Qed.

(** A rejected line ends the run: no later line is looked at. *)
Lemma processLogFile_rejected cfg parser line err rest :
  Gonx.ParseString parser line = inl err →
  processLogFile ParseFloat negative cfg parser (line :: rest)
    = ([LogFatalf line err], Proc.Exit).
Proof.
  intros H. simpl. by rewrite (processLine_rejected _ _ _ H).
Qed.

Lemma processLogFile_panicked cfg parser line (entry : Gonx.Entry) rest :
  Gonx.ParseString parser line = inr entry →
  tokenless entry = true →
  processLogFile ParseFloat negative cfg parser (line :: rest)
    = ([], Proc.Panic).
Proof.
  intros H Ht. simpl. by rewrite (processLine_matched _ _ _ H), Ht.
Qed.

(** Calls of the numeric fields never address the request counter. *)
Lemma numeric_calls_frame (entry : Gonx.Entry) lv lvs :
  Forall (λ c, target c ≠ Some (Vec.countTotal, lvs))
    (bytesCalls ParseFloat entry lv ++ upstreamCalls ParseFloat entry lv
       ++ responseCalls ParseFloat entry lv).
Proof.
  unfold bytesCalls, upstreamCalls, responseCalls.
  destruct (Gonx.Entry.FloatField ParseFloat entry "body_bytes_sent");
    destruct (Gonx.Entry.FloatField ParseFloat entry "upstream_response_time");
    destruct (Gonx.Entry.FloatField ParseFloat entry "request_time");
    repeat constructor; done.
Qed.

(** On a matched line whose request holds a token (or is absent) the
    request counter of the label set goes up by one, whatever the
    numeric fields hold. *)
Lemma count_incremented parser line (entry : Gonx.Entry) m :
  Gonx.ParseString parser line = inr entry →
  tokenless entry = false →
  incs (child Vec.countTotal (LabelSet entry)
          (exec m (Proc.calls (processLine ParseFloat negative parser line))))
    = S (incs (child Vec.countTotal (LabelSet entry) m)).
Proof.
  intros H Ht. rewrite (processLine_matched _ _ _ H), Ht.
  destruct (bytesPanic ParseFloat negative entry).
  - unfold Proc.calls; simpl fst. rewrite !exec_cons.
    change (exec ?s []) with s. by rewrite child_apply_VecInc.
  - unfold Proc.calls; simpl fst.
    change ([LogPrintf line; VecInc Vec.countTotal (LabelSet entry)] ++ ?l)
      with (LogPrintf line :: VecInc Vec.countTotal (LabelSet entry) :: l).
    rewrite !exec_cons.
    rewrite child_exec_other by apply numeric_calls_frame.
    by rewrite child_apply_VecInc.
Qed.

(** *** Lines under a format without [$upstream_response_time] *)

Lemma FloatField_undeclared parser line (entry : Gonx.Entry) name :
  Gonx.ParseString parser line = inr entry →
  name ∉ Gonx.fieldNames (Gonx.plan parser) →
  Gonx.Entry.FloatField ParseFloat entry name = inl (Gonx.FieldAbsent name).
Proof.
  intros H Hn. unfold Gonx.Entry.FloatField, Gonx.Entry.Field.
  by rewrite (GonxFacts.ParseString_absent _ _ _ _ H Hn).
Qed.

Lemma processLine_upstreamFree parser line :
  "upstream_response_time" ∉ Gonx.fieldNames (Gonx.plan parser) →
  Forall upstreamFree
    (Proc.calls (processLine ParseFloat negative parser line)).
Proof.
  intros Hn.
  destruct (Gonx.ParseString parser line) as [err|entry] eqn:E.
  - rewrite (processLine_rejected _ _ _ E). by repeat constructor.
  - rewrite (processLine_matched _ _ _ E).
    destruct (tokenless entry); [by constructor |].
    destruct (bytesPanic ParseFloat negative entry);
      [by repeat constructor |].
    unfold upstreamCalls.
    rewrite (FloatField_undeclared _ _ _ _ E Hn).
    unfold bytesCalls, responseCalls.
    destruct (Gonx.Entry.FloatField ParseFloat entry "body_bytes_sent");
      destruct (Gonx.Entry.FloatField ParseFloat entry "request_time");
      by repeat constructor.
Qed.

Lemma processLogFile_upstreamFree cfg parser lines :
  "upstream_response_time" ∉ Gonx.fieldNames (Gonx.plan parser) →
  Forall upstreamFree
    (Proc.calls (processLogFile ParseFloat negative cfg parser lines)).
Proof.
  intros Hn. induction lines as [|line rest IH]; [by constructor |].
  apply (ProcFacts.Forall_calls_bind upstreamFree).
  - by apply processLine_upstreamFree.
  - intros _. exact IH.
Qed.

End WithFloat.
End PipelineFacts.
(** * The properties of the specification *)

Import Prometheus Exporter FormatSpec LineSpec PipelineFacts.

(** ** Rejected lines *)

(** C1 (the code departs from it): on a rejected line the pipeline is
    to log, add one to the parse-error counter and go on with the next
    line.  The source calls [log.Fatalf] first, which ends the process:
    with the template [$status $request_time] the line [abc] is
    rejected, the run stops there, the counter stays at zero and the
    next line [200 0.123] is never looked at. *)
Theorem rejected_line_ends_the_run {F : Type} (ParseFloat : string → option F)
    (negative : F → bool) :
  ∃ parser err,
    Gonx.NewParser "$status $request_time" = inr parser
    ∧ Gonx.ParseString parser "abc" = inl err
    ∧ processLogFile ParseFloat negative defaultConfig parser
        ["abc"; "200 0.123"]
        = ([LogFatalf "abc" err], Proc.Exit)
    ∧ parseErrorsTotal (exec (Init (F := F)) [LogFatalf "abc" err]) = 0.
Proof.
  set (parser := Gonx.mkParser "$status $request_time"
                   (Gonx.tokenize "$status $request_time")).
  set (err := Gonx.mkParseError "abc" (Gonx.PrematureEnd 3)).
  assert (Gonx.ParseString parser "abc" = inl err) as Hparse
    by (vm_compute; reflexivity).
  exists parser, err.
  split; [reflexivity |]. split; [exact Hparse |]. split; [| reflexivity].
  by apply processLogFile_rejected.
Qed.

(** ** The label set *)

(** C3 (the code departs from it): the method label is to be the empty
    string when the request field is empty or blank, and deriving the
    labels is never to abort the line.  The source indexes
    [strings.Fields(request)] at 0 without looking at its length: under
    the template [$status "$request"] the line [400 ""] is matched with
    an empty request, the label set of section 4.4 would be
    [("400", "")], and the loop body panics before any call is made; a
    request of one space does the same. *)
Theorem empty_request_panics {F : Type} (ParseFloat : string → option F)
    (negative : F → bool) :
  ∃ parser entry,
    Gonx.NewParser statusRequestFormat = inr parser
    ∧ Gonx.ParseString parser ("400 " +:+ dq +:+ dq) = inr entry
    ∧ entry = {[ "status" := "400"; "request" := EmptyString ]}
    ∧ LabelSet entry = ["400"; EmptyString]
    ∧ labelValuesOf (F := F) entry = ([], Proc.Panic)
    ∧ processLine ParseFloat negative parser ("400 " +:+ dq +:+ dq)
      = ([], Proc.Panic)
    ∧ labelValuesOf (F := F) {[ "request" := " " ]} = ([], Proc.Panic).
Proof.
  set (parser := Gonx.mkParser statusRequestFormat
                   (Gonx.tokenize statusRequestFormat)).
  set (entry := ({[ "status" := "400"; "request" := EmptyString ]}
                   : Gonx.Entry)).
  assert (Gonx.ParseString parser ("400 " +:+ dq +:+ dq) = inr entry) as Hparse
    by (vm_compute; reflexivity).
  assert (tokenless entry = true) as Htok by (vm_compute; reflexivity).
  assert (tokenless {[ "request" := " " ]} = true) as Hblank
    by (vm_compute; reflexivity).
  assert (LabelSet entry = ["400"; EmptyString]) as Hlabels
    by (vm_compute; reflexivity).
  exists parser, entry.
  split; [reflexivity |]. split; [exact Hparse |]. split; [reflexivity |].
  split; [exact Hlabels |].
  split; [by rewrite labelValuesOf_eq, Htok |].
  split; [| by rewrite labelValuesOf_eq, Hblank].
  by rewrite (processLine_matched _ _ _ _ _ Hparse), Htok.
Qed.

(** ** The request counter *)

(** C4 (the code departs from it): every matched line is to add one to
    the request counter of its label set.  Under the default format the
    line [emptyRequestLine] is matched, with status [400] and an empty
    request; the loop body panics while deriving the labels, before
    [countTotal] is touched, so the counter of [("400", "")] is not
    incremented. *)
Theorem empty_request_line_not_counted {F : Type}
    (ParseFloat : string → option F) (negative : F → bool) (m : Metrics F) :
  ∃ parser entry,
    Gonx.NewParser defaultFormat = inr parser
    ∧ Gonx.ParseString parser emptyRequestLine = inr entry
    ∧ entry = emptyRequestEntry
    ∧ LabelSet entry = ["400"; EmptyString]
    ∧ processLine ParseFloat negative parser emptyRequestLine = ([], Proc.Panic)
    ∧ child Vec.countTotal (LabelSet entry)
        (exec m (Proc.calls
                   (processLine ParseFloat negative parser emptyRequestLine)))
      = child Vec.countTotal (LabelSet entry) m.
Proof.
  set (parser := Gonx.mkParser defaultFormat (Gonx.tokenize defaultFormat)).
  assert (Gonx.ParseString parser emptyRequestLine = inr emptyRequestEntry)
    as Hparse by (vm_compute; reflexivity).
  assert (tokenless emptyRequestEntry = true) as Htok
    by (vm_compute; reflexivity).
  assert (LabelSet emptyRequestEntry = ["400"; EmptyString]) as Hlabels
    by (vm_compute; reflexivity).
  assert (processLine ParseFloat negative parser emptyRequestLine
          = ([], Proc.Panic))
    as Hrun by (by rewrite (processLine_matched _ _ _ _ _ Hparse), Htok).
  exists parser, emptyRequestEntry.
  split; [reflexivity |]. split; [exact Hparse |]. split; [reflexivity |].
  split; [exact Hlabels |]. split; [exact Hrun |].
  rewrite Hrun. reflexivity.
Qed.

(** ** The numeric fields *)

(** C5 (the code departs from it): on a matched line a numeric field
    that is absent or not a number is to cost its own update only.
    Under [numericFormat] the line [400 "" - 0.005] is matched; its
    body size [-] is not a number and its request time is.  The request
    count and the two response-time observations are due, yet the loop
    body panics on the empty request and makes no call at all. *)
Theorem empty_request_drops_all_updates :
  ∃ parser entry,
    Gonx.NewParser numericFormat = inr parser
    ∧ Gonx.ParseString parser ("400 " +:+ dq +:+ dq +:+ " - 0.005") = inr entry
    ∧ entry = {[ "status" := "400"; "request" := EmptyString;
                 "body_bytes_sent" := "-"; "request_time" := "0.005" ]}
    ∧ Gonx.Entry.FloatField Strconv.ParseFloat entry "body_bytes_sent"
        = inl (Gonx.NotNumeric "body_bytes_sent" "-")
    ∧ Gonx.Entry.FloatField Strconv.ParseFloat entry "request_time"
        = inr (5 # 1000)
    ∧ responseCalls Strconv.ParseFloat entry (LabelSet entry)
        = [VecObserve Vec.responseSeconds ["400"; EmptyString] (5 # 1000);
           VecObserve Vec.responseSecondsHist ["400"; EmptyString] (5 # 1000)]
    ∧ processLine Strconv.ParseFloat Strconv.negative parser
        ("400 " +:+ dq +:+ dq +:+ " - 0.005") = ([], Proc.Panic).
Proof.
  set (parser := Gonx.mkParser numericFormat (Gonx.tokenize numericFormat)).
  set (entry := ({[ "status" := "400"; "request" := EmptyString;
                    "body_bytes_sent" := "-"; "request_time" := "0.005" ]}
                   : Gonx.Entry)).
  assert (Gonx.ParseString parser ("400 " +:+ dq +:+ dq +:+ " - 0.005")
          = inr entry) as Hparse by (vm_compute; reflexivity).
  assert (tokenless entry = true) as Htok by (vm_compute; reflexivity).
  exists parser, entry.
  split; [reflexivity |]. split; [exact Hparse |]. split; [reflexivity |].
  split; [vm_compute; reflexivity |].
  split; [vm_compute; reflexivity |].
  split; [vm_compute; reflexivity |].
  by rewrite (processLine_matched _ _ _ _ _ Hparse), Htok.
Qed.

(** ** A worked line *)

(** C7: with the template [$status $request_time] the line [200 0.123]
    is matched to the fields [status = 200] and [request_time = 0.123];
    the loop body adds one to the request counter of the label set
    [("200", "")] and hands the number read from [0.123] to both the
    response-time summary and the response-time histogram. *)
Theorem status_request_time_line {F : Type} (ParseFloat : string → option F)
    (negative : F → bool) (x : F) (m : Metrics F) :
  ParseFloat "0.123" = Some x →
  ∃ parser entry,
    Gonx.NewParser "$status $request_time" = inr parser
    ∧ Gonx.ParseString parser "200 0.123" = inr entry
    ∧ entry = {[ "status" := "200"; "request_time" := "0.123" ]}
    ∧ processLine ParseFloat negative parser "200 0.123"
      = ([LogPrintf "200 0.123";
          VecInc Vec.countTotal ["200"; EmptyString];
          VecObserve Vec.responseSeconds ["200"; EmptyString] x;
          VecObserve Vec.responseSecondsHist ["200"; EmptyString] x],
         Proc.Ret tt)
    ∧ (let m' := exec m (Proc.calls
                           (processLine ParseFloat negative parser
                              "200 0.123")) in
       incs (child Vec.countTotal ["200"; EmptyString] m')
         = S (incs (child Vec.countTotal ["200"; EmptyString] m))
       ∧ values (child Vec.responseSeconds ["200"; EmptyString] m')
         = x :: values (child Vec.responseSeconds ["200"; EmptyString] m)
       ∧ values (child Vec.responseSecondsHist ["200"; EmptyString] m')
         = x :: values (child Vec.responseSecondsHist ["200"; EmptyString] m)).
Proof.
  intros Hx.
  set (parser := Gonx.mkParser "$status $request_time"
                   (Gonx.tokenize "$status $request_time")).
  set (entry := ({[ "status" := "200"; "request_time" := "0.123" ]}
                   : Gonx.Entry)).
  assert (Gonx.ParseString parser "200 0.123" = inr entry) as Hparse
    by (vm_compute; reflexivity).
  assert (processLine ParseFloat negative parser "200 0.123"
          = ([LogPrintf "200 0.123";
              VecInc Vec.countTotal ["200"; EmptyString];
              VecObserve Vec.responseSeconds ["200"; EmptyString] x;
              VecObserve Vec.responseSecondsHist ["200"; EmptyString] x],
             Proc.Ret tt)) as Hrun.
  { assert (tokenless entry = false) as Htok by (vm_compute; reflexivity).
    assert (LabelSet entry = ["200"; EmptyString]) as Hlabels
      by (vm_compute; reflexivity).
    assert (Gonx.Entry.Field entry "body_bytes_sent"
            = inl (Gonx.FieldAbsent "body_bytes_sent")) as Hb
      by (vm_compute; reflexivity).
    assert (Gonx.Entry.Field entry "upstream_response_time"
            = inl (Gonx.FieldAbsent "upstream_response_time")) as Hu
      by (vm_compute; reflexivity).
    assert (Gonx.Entry.Field entry "request_time" = inr "0.123") as Hr
      by (vm_compute; reflexivity).
    rewrite (processLine_matched _ _ _ _ _ Hparse), Htok, Hlabels.
    unfold bytesPanic, bytesCalls, upstreamCalls, responseCalls,
      Gonx.Entry.FloatField.
    by rewrite Hb, Hu, Hr, Hx. }
  exists parser, entry.
  split; [reflexivity |]. split; [exact Hparse |]. split; [reflexivity |].
  split; [exact Hrun |].
  rewrite Hrun. unfold Proc.calls. simpl fst. rewrite !exec_cons.
  change (exec ?s []) with s.
  split; [| split].
  - rewrite !child_apply_other by done. by rewrite child_apply_VecInc.
  - rewrite child_apply_other by done.
    rewrite (proj1 (child_apply_push _ _ _ _)).
    rewrite !child_apply_other by done. reflexivity.
  - rewrite (proj1 (child_apply_push _ _ _ _)).
    rewrite !child_apply_other by done. reflexivity.
Qed.

Lemma status_request_time_line_witness :
  Strconv.ParseFloat "0.123" = Some (123 # 1000)
  ∧ ∃ parser entry,
      Gonx.NewParser "$status $request_time" = inr parser
      ∧ Gonx.ParseString parser "200 0.123" = inr entry
      ∧ entry = {[ "status" := "200"; "request_time" := "0.123" ]}
      ∧ processLine Strconv.ParseFloat Strconv.negative parser "200 0.123"
        = ([LogPrintf "200 0.123";
            VecInc Vec.countTotal ["200"; EmptyString];
            VecObserve Vec.responseSeconds ["200"; EmptyString] (123 # 1000);
            VecObserve Vec.responseSecondsHist ["200"; EmptyString] (123 # 1000)],
           Proc.Ret tt)
      ∧ (let m' := exec (Init (F := Q))
                     (Proc.calls
                        (processLine Strconv.ParseFloat Strconv.negative
                           parser "200 0.123")) in
         incs (child Vec.countTotal ["200"; EmptyString] m')
           = S (incs (child Vec.countTotal ["200"; EmptyString] (Init (F := Q))))
         ∧ values (child Vec.responseSeconds ["200"; EmptyString] m')
           = (123 # 1000)
               :: values (child Vec.responseSeconds ["200"; EmptyString]
                            (Init (F := Q)))
         ∧ values (child Vec.responseSecondsHist ["200"; EmptyString] m')
           = (123 # 1000)
               :: values (child Vec.responseSecondsHist ["200"; EmptyString]
                            (Init (F := Q)))).
Proof.
  split; [reflexivity |].
  apply (status_request_time_line Strconv.ParseFloat Strconv.negative
           (123 # 1000)
           (Init (F := Q))).
  reflexivity.
Defined.

(** ** The label tuple *)

(** C9: for every line, the updates of metric vectors made for it use
    one and the same label tuple, of size two, holding the status at
    position 0 and the method at position 1, the order of the label
    names the vectors were created with in [Metrics.Init]. *)
Theorem label_tuple_fixed {F : Type} (ParseFloat : string → option F)
    (negative : F → bool) (parser : Gonx.Parser) (line : string) :
  ∃ lv : list string,
    length lv = 2
    ∧ Forall (labelled lv)
        (Proc.calls (processLine ParseFloat negative parser line))
    ∧ match Gonx.ParseString parser line with
      | inr entry => lv = [statusLabel entry; methodLabel entry]
      | inl _ => True
      end.
Proof.
  destruct (Gonx.ParseString parser line) as [err|entry] eqn:E.
  - exists [EmptyString; EmptyString]. split; [done |]. split; [| done].
    rewrite (processLine_rejected _ _ _ _ _ E). by repeat constructor.
  - exists (LabelSet entry). split; [done |]. split; [| done].
    rewrite (processLine_matched _ _ _ _ _ E).
    destruct (tokenless entry); [by constructor |].
    destruct (bytesPanic ParseFloat negative entry);
      [by repeat constructor |].
    unfold bytesCalls, upstreamCalls, responseCalls.
    destruct (Gonx.Entry.FloatField ParseFloat entry "body_bytes_sent");
      destruct (Gonx.Entry.FloatField ParseFloat entry "upstream_response_time");
      destruct (Gonx.Entry.FloatField ParseFloat entry "request_time");
      by repeat constructor.
Qed.

(** ** The default format *)

(** C10: the default format declares no [$upstream_response_time].
    Under it every matched line lacks that field, its numeric
    extraction fails, and no run over any lines touches the upstream
    summary or the upstream histogram. *)
Theorem default_format_never_updates_upstream {F : Type}
    (ParseFloat : string → option F) (negative : F → bool)
    (lines : list string) (m : Metrics F) :
  ∃ parser,
    Gonx.NewParser (Format (logConfig defaultConfig)) = inr parser
    ∧ (∀ line entry,
         Gonx.ParseString parser line = inr entry →
         Gonx.Entry.FloatField ParseFloat entry "upstream_response_time"
           = inl (Gonx.FieldAbsent "upstream_response_time")
         ∧ upstreamCalls ParseFloat entry (LabelSet entry) = [])
    ∧ (let m' := exec m (Proc.calls
                           (main ParseFloat negative defaultConfig lines)) in
       upstreamSeconds m' = upstreamSeconds m
       ∧ upstreamSecondsHist m' = upstreamSecondsHist m).
Proof.
  set (parser := Gonx.mkParser defaultFormat (Gonx.tokenize defaultFormat)).
  assert ("upstream_response_time" ∉ Gonx.fieldNames (Gonx.plan parser)) as Hn.
  { vm_compute. intros H.
    repeat (apply elem_of_cons in H as [H|H]; [discriminate H |]).
    by apply elem_of_nil in H. }
  exists parser. split; [reflexivity |]. split.
  - intros line entry H.
    pose proof (FloatField_undeclared ParseFloat _ _ _ _ H Hn) as Hf.
    split; [exact Hf |]. unfold upstreamCalls. by rewrite Hf.
  - change (main ParseFloat negative defaultConfig lines)
      with (processLogFile ParseFloat negative defaultConfig parser lines).
    pose proof (processLogFile_upstreamFree ParseFloat negative defaultConfig
                  parser lines Hn) as Hfree.
    split.
    + apply (vec_exec_other Vec.upstreamSeconds).
      eapply Forall_impl; [exact Hfree |]. intros c Hc lvs. apply Hc.
    + apply (vec_exec_other Vec.upstreamSecondsHist).
      eapply Forall_impl; [exact Hfree |]. intros c Hc lvs. apply Hc.
Qed.


(** ** Compiling and matching *)



(** * Further properties of the loop body and of whole runs *)

Import RunSpec.

(** ** Tokens of [strings.Fields] *)

Module FieldsFacts.
Import GoStrings.

Lemma snoc_not_empty (s : string) (c : ascii) :
  s +:+ String c EmptyString ≠ EmptyString.
Proof. by destruct s. Qed.

Lemma spaceFree_snoc (s : string) (c : ascii) :
  spaceFree (s +:+ String c EmptyString)
    = spaceFree s && negb (asciiSpace c).
Proof.
  induction s as [|d s IH].
  - rewrite BytesFacts.app_nil. simpl. by rewrite andb_true_r.
  - rewrite BytesFacts.app_cons. simpl. by rewrite IH, andb_assoc.
Qed.

Lemma fieldsFrom_tokens (cur s : string) :
  spaceFree cur = true →
  Forall (λ t, t ≠ EmptyString ∧ spaceFree t = true) (fieldsFrom cur s).
Proof.
  revert cur. induction s as [|c s IH]; intros cur Hcur; simpl.
  - destruct cur; [constructor |]. by repeat constructor.
  - destruct (asciiSpace c) eqn:Hc.
    + destruct cur as [|d cur]; [by apply IH |].
      constructor; [done | by apply IH].
    + apply IH. by rewrite spaceFree_snoc, Hcur, Hc.
Qed.

(** The six ASCII spaces are single-byte runes that [unicode.IsSpace]
    holds to be white space. *)
Lemma asciiSpace_rune (c : ascii) :
  asciiSpace c = true →
  (N_of_ascii c <? 128)%N = true ∧ Unicode.IsSpace (N_of_ascii c) = true.
Proof.
  destruct c as [[] [] [] [] [] [] [] []]; intros H;
    try discriminate H; by vm_compute.
Qed.

Lemma high_byte_not_space (lo hi : N) (c : ascii) :
  (128 <=? lo)%N = true → Utf8.within lo hi c = true → asciiSpace c = false.
Proof.
  intros Hlo Hin. destruct (asciiSpace c) eqn:Hc; [| done].
  apply asciiSpace_rune in Hc as [Hc _].
  unfold Utf8.within in Hin. apply andb_true_iff in Hin as [Hin _].
  apply N.leb_le in Hlo, Hin. apply N.ltb_lt in Hc. lia.
Qed.

(** The accept range of a leading byte lies among the bytes with the
    high bit set. *)
Lemma first_Seq (b : N) (sz : nat) (lo hi : N) :
  Utf8.first b = Utf8.Seq sz lo hi →
  (b <? 128)%N = false ∧ (128 <=? lo)%N = true.
Proof.
  unfold Utf8.first.
  destruct (b <? 128)%N; [done |].
  repeat match goal with
         | |- context [if ?t then _ else _] => destruct t
         end; intros [= <- <- <-] || intros [=]; done.
Qed.

Lemma first_XX (b : N) : Utf8.first b = Utf8.XX → (b <? 128)%N = false.
Proof. unfold Utf8.first. by destruct (b <? 128)%N. Qed.

Lemma substring_0_0 (s : string) : String.substring 0 0 s = EmptyString.
Proof. by destruct s. Qed.

(** The bytes of a rune that is not white space are not ASCII spaces. *)
Lemma rune_bytes_spaceFree (c : ascii) (s : string) (r : N) (width : nat) :
  Utf8.DecodeRuneInString (String c s) = (r, width) →
  Unicode.IsSpace r = false →
  asciiSpace c = false
  ∧ spaceFree (String.substring 0 (width - 1) s) = true.
Proof.
  unfold Utf8.DecodeRuneInString.
  destruct (Utf8.first (N_of_ascii c)) as [| |sz lo hi] eqn:Hfirst.
  - intros [= <- <-] Hr. split; [| by rewrite substring_0_0].
    destruct (asciiSpace c) eqn:Hc; [| done].
    apply asciiSpace_rune in Hc as [_ Hc]. congruence.
  - intros [= <- <-] _. split; [| by rewrite substring_0_0].
    apply first_XX in Hfirst.
    destruct (asciiSpace c) eqn:Hc; [| done].
    apply asciiSpace_rune in Hc as [Hc _]. congruence.
  - apply first_Seq in Hfirst as [Hb Hlo].
    assert (asciiSpace c = false) as Hc0.
    { destruct (asciiSpace c) eqn:Hc; [| done].
      apply asciiSpace_rune in Hc as [Hc _]. congruence. }
    assert (∀ d, Utf8.within Utf8.locb Utf8.hicb d = true →
                 asciiSpace d = false) as Hcont.
    { intros d. by apply high_byte_not_space. }
    assert (∀ t, spaceFree (String.substring 0 (1 - 1) t) = true) as Hone.
    { intros t. simpl. by rewrite substring_0_0. }
    destruct (String.length (String c s) <? sz); [by intros [= <- <-] |].
    destruct s as [|s1 r1]; [by intros [= <- <-] |].
    destruct (Utf8.within lo hi s1) eqn:H1; simpl negb; cbv iota;
      [| by intros [= <- <-]].
    apply (high_byte_not_space _ _ _ Hlo) in H1.
    destruct (sz <=? 2).
    { intros [= <- <-] _. split; [done |]. simpl.
      by rewrite H1, substring_0_0. }
    destruct r1 as [|s2 r2]; [by intros [= <- <-] |].
    destruct (Utf8.within Utf8.locb Utf8.hicb s2) eqn:H2; simpl negb; cbv iota;
      [| by intros [= <- <-]].
    apply Hcont in H2.
    destruct (sz <=? 3).
    { intros [= <- <-] _. split; [done |]. simpl.
      by rewrite H1, H2, substring_0_0. }
    destruct r2 as [|s3 r3]; [by intros [= <- <-] |].
    destruct (Utf8.within Utf8.locb Utf8.hicb s3) eqn:H3; simpl negb; cbv iota;
      [| by intros [= <- <-]].
    apply Hcont in H3.
    intros [= <- <-] _. split; [done |]. simpl.
    by rewrite H1, H2, H3, substring_0_0.
Qed.

Lemma fieldsFuncFrom_tokens (cur : string) (more : nat) (keep : bool)
    (s : string) :
  spaceFree cur = true →
  (keep = true → spaceFree (String.substring 0 more s) = true) →
  Forall (λ t, t ≠ EmptyString ∧ spaceFree t = true)
    (fieldsFuncFrom Unicode.IsSpace cur more keep s).
Proof.
  revert cur more keep.
  induction s as [|c s IH]; intros cur more keep Hcur Hmore.
  - simpl. destruct cur; [constructor |]. by repeat constructor.
  - destruct more as [|k].
    + cbn [fieldsFuncFrom].
      destruct (Utf8.DecodeRuneInString (String c s)) as [r width] eqn:E.
      destruct (Unicode.IsSpace r) eqn:Hr.
      * destruct cur as [|d cur]; [by apply IH |].
        constructor; [done | by apply IH].
      * destruct (rune_bytes_spaceFree _ _ _ _ E Hr) as [Hc Hrest].
        apply IH; [| done]. by rewrite spaceFree_snoc, Hcur, Hc.
    + cbn [fieldsFuncFrom]. destruct keep.
      * specialize (Hmore eq_refl). simpl in Hmore.
        apply andb_true_iff in Hmore as [Hc Hrest].
        apply IH; [| done]. by rewrite spaceFree_snoc, Hcur, Hc.
      * by apply IH.
Qed.

(** Every token of [strings.Fields] is non-empty and holds no ASCII
    space. *)
Lemma Fields_tokens (s : string) :
  Forall (λ t, t ≠ EmptyString ∧ spaceFree t = true) (Fields s).
Proof.
  unfold Fields. destruct (isASCII s).
  - by apply fieldsFrom_tokens.
  - by apply fieldsFuncFrom_tokens.
Qed.

End FieldsFacts.
(** ** Runs as sequences of calls *)

Module RunFacts.

Section WithCalls.
Context {C : Type}.

Lemma bind_Ret {A B} (f : A → @Proc.t C B) (m : @Proc.t C A) (a : A) :
  Proc.result m = Proc.Ret a →
  Proc.bind f m = (Proc.calls m ++ Proc.calls (f a), Proc.result (f a)).
Proof.
  destruct m as [cs r]. simpl. intros ->. simpl. by destruct (f a).
Qed.

Lemma bind_Ret_calls {A B} (f : A → @Proc.t C B) (m : @Proc.t C A) (a : A) :
  Proc.result m = Proc.Ret a →
  Proc.calls (Proc.bind f m) = Proc.calls m ++ Proc.calls (f a).
Proof. intros H. by rewrite (bind_Ret _ _ _ H). Qed.

Lemma bind_Ret_result {A B} (f : A → @Proc.t C B) (m : @Proc.t C A) (a : A) :
  Proc.result m = Proc.Ret a →
  Proc.result (Proc.bind f m) = Proc.result (f a).
Proof. intros H. by rewrite (bind_Ret _ _ _ H). Qed.

Lemma bind_stops {A B} (f : A → @Proc.t C B) (m : @Proc.t C A) :
  (∀ a, Proc.result m ≠ Proc.Ret a) →
  Proc.calls (Proc.bind f m) = Proc.calls m
  ∧ ∀ b, Proc.result (Proc.bind f m) ≠ Proc.Ret b.
Proof.
  destruct m as [cs [a| |]]; simpl; intros H; [by destruct (H a) | done..].
Qed.

End WithCalls.

Section WithFloat.
Context {F : Type}.
Variable ParseFloat : string → option F.
Variable negative : F → bool.

(** Every call of a line is of one of the seven kinds written in the
    loop body. *)
Lemma processLine_Forall (P : Call F → Prop) parser line :
  (∀ err, P (LogFatalf line err)) →
  P (LogPrintf line) →
  (∀ lv, P (VecInc Vec.countTotal lv)) →
  (∀ lv x, P (VecAdd Vec.bytesTotal lv x)) →
  (∀ lv x, P (VecObserve Vec.upstreamSeconds lv x)) →
  (∀ lv x, P (VecObserve Vec.upstreamSecondsHist lv x)) →
  (∀ lv x, P (VecObserve Vec.responseSeconds lv x)) →
  (∀ lv x, P (VecObserve Vec.responseSecondsHist lv x)) →
  Forall P (Proc.calls (processLine ParseFloat negative parser line)).
Proof.
  intros Hfatal Hlog Hcount Hbytes Hus Hush Hrs Hrsh.
  destruct (Gonx.ParseString parser line) as [err|entry] eqn:E.
  - rewrite (processLine_rejected _ _ _ _ _ E). by repeat constructor.
  - rewrite (processLine_matched _ _ _ _ _ E).
    destruct (tokenless entry); [by constructor |].
    destruct (bytesPanic ParseFloat negative entry);
      [by repeat constructor |].
    unfold bytesCalls, upstreamCalls, responseCalls.
    destruct (Gonx.Entry.FloatField ParseFloat entry "body_bytes_sent");
      destruct (Gonx.Entry.FloatField ParseFloat entry "upstream_response_time");
      destruct (Gonx.Entry.FloatField ParseFloat entry "request_time");
      by repeat constructor.
Qed.

Lemma processLogFile_Forall (P : Call F → Prop) cfg parser lines :
  (∀ line,
     Forall P (Proc.calls (processLine ParseFloat negative parser line))) →
  Forall P (Proc.calls (processLogFile ParseFloat negative cfg parser lines)).
Proof.
  intros Hline. induction lines as [|line rest IH]; [by constructor |].
  apply (ProcFacts.Forall_calls_bind P); [apply Hline | by intros _].
Qed.

Lemma processLogFile_cons cfg parser line rest :
  processLogFile ParseFloat negative cfg parser (line :: rest)
    = Proc.bind (λ _, processLogFile ParseFloat negative cfg parser rest)
        (processLine ParseFloat negative parser line).
Proof. reflexivity. Qed.

(** A line ends normally exactly when it is matched, its request, if
    any, holds a token, and its body size, if a number, is not
    negative. *)
Lemma processLine_result parser line :
  Proc.result (processLine ParseFloat negative parser line) =
    match Gonx.ParseString parser line with
    | inl _ => Proc.Exit
    | inr entry =>
        if tokenless entry || bytesPanic ParseFloat negative entry
        then Proc.Panic else Proc.Ret tt
    end.
Proof.
  destruct (Gonx.ParseString parser line) as [err|entry] eqn:E.
  - by rewrite (processLine_rejected _ _ _ _ _ E).
  - rewrite (processLine_matched _ _ _ _ _ E).
    destruct (tokenless entry); [done |].
    by destruct (bytesPanic ParseFloat negative entry).
Qed.

Lemma processLine_handled parser line :
  Proc.result (processLine ParseFloat negative parser line) = Proc.Ret tt
  ↔ handled ParseFloat negative parser line = true.
Proof.
  rewrite processLine_result. unfold handled.
  destruct (Gonx.ParseString parser line) as [err|entry]; [done |].
  destruct (tokenless entry); [done |].
  by destruct (bytesPanic ParseFloat negative entry).
Qed.

End WithFloat.
End RunFacts.

Import FieldsFacts RunFacts.

(** ** What no run does *)

(** X1: no run ever adds to the parse-error counter.  The only
    [parseErrorsTotal.Inc()] of the source stands after [log.Fatalf],
    so for every parser and every sequence of lines the counter holds
    after the run what it held before. *)
Theorem parse_errors_never_counted {F : Type} (ParseFloat : string → option F)
    (negative : F → bool) (cfg : Config) (parser : Gonx.Parser)
    (lines : list string)
    (m : Metrics F) :
  Forall (λ c, c ≠ CounterInc)
    (Proc.calls (processLogFile ParseFloat negative cfg parser lines))
  ∧ parseErrorsTotal
      (exec m (Proc.calls (processLogFile ParseFloat negative cfg parser lines)))
    = parseErrorsTotal m.
Proof.
  assert (Forall (λ c : Call F, c ≠ CounterInc)
            (Proc.calls
               (processLogFile ParseFloat negative cfg parser lines))) as H.
  { apply processLogFile_Forall. intros line.
    by apply processLine_Forall. }
  split; [exact H |]. by apply parseErrorsTotal_exec.
Qed.

(** X2: the vectors [upstreamBytes] and [responseBytes] are created by
    [Metrics.Init] and never written: whatever the parser and the
    lines, a run leaves both as they were. *)
Theorem byte_vectors_never_updated {F : Type} (ParseFloat : string → option F)
    (negative : F → bool) (cfg : Config) (parser : Gonx.Parser)
    (lines : list string)
    (m : Metrics F) :
  upstreamBytes
      (exec m (Proc.calls (processLogFile ParseFloat negative cfg parser lines)))
    = upstreamBytes m
  ∧ responseBytes
      (exec m (Proc.calls (processLogFile ParseFloat negative cfg parser lines)))
    = responseBytes m.
Proof.
  split.
  - apply (vec_exec_other Vec.upstreamBytes).
    apply processLogFile_Forall. intros line.
    by apply processLine_Forall.
  - apply (vec_exec_other Vec.responseBytes).
    apply processLogFile_Forall. intros line.
    by apply processLine_Forall.
Qed.

(** ** Lines in sequence *)

Lemma run_app {F : Type} (ParseFloat : string → option F)
    (negative : F → bool) (cfg : Config) (parser : Gonx.Parser)
    (l1 l2 : list string) :
  processLogFile ParseFloat negative cfg parser (l1 ++ l2) =
    match Proc.result (processLogFile ParseFloat negative cfg parser l1) with
    | Proc.Ret _ =>
        (Proc.calls (processLogFile ParseFloat negative cfg parser l1)
           ++ Proc.calls (processLogFile ParseFloat negative cfg parser l2),
         Proc.result (processLogFile ParseFloat negative cfg parser l2))
    | _ => processLogFile ParseFloat negative cfg parser l1
    end.
Proof.
  induction l1 as [|line rest IH].
  - simpl. by destruct (processLogFile ParseFloat negative cfg parser l2).
  - change ((line :: rest) ++ l2) with (line :: (rest ++ l2)).
    rewrite !processLogFile_cons, IH.
    destruct (processLine ParseFloat negative parser line) as [cs [[]| |]];
      simpl; try done.
    destruct (processLogFile ParseFloat negative cfg parser rest) as [cs1 [[]| |]];
      simpl; try done.
    destruct (processLogFile ParseFloat negative cfg parser l2) as [cs2 r2]; simpl.
    by rewrite app_assoc.
Qed.

(** X3: lines are handled in order and a run over [l1 ++ l2] is the
    run over [l1] followed by the run over [l2], as long as the run
    over [l1] ends normally; once it has ended by [os.Exit] or by a
    panic, the lines of [l2] add nothing.  In either case the calls made
    for [l1] come first. *)
Theorem processLogFile_app {F : Type} (ParseFloat : string → option F)
    (negative : F → bool) (cfg : Config) (parser : Gonx.Parser)
    (l1 l2 : list string) :
  processLogFile ParseFloat negative cfg parser (l1 ++ l2) =
    match Proc.result (processLogFile ParseFloat negative cfg parser l1) with
    | Proc.Ret _ =>
        (Proc.calls (processLogFile ParseFloat negative cfg parser l1)
           ++ Proc.calls (processLogFile ParseFloat negative cfg parser l2),
         Proc.result (processLogFile ParseFloat negative cfg parser l2))
    | _ => processLogFile ParseFloat negative cfg parser l1
    end
  ∧ Proc.calls (processLogFile ParseFloat negative cfg parser l1)
      `prefix_of`
      Proc.calls (processLogFile ParseFloat negative cfg parser (l1 ++ l2)).
Proof.
  split; [apply run_app |]. rewrite run_app.
  destruct (Proc.result (processLogFile ParseFloat negative cfg parser l1));
    [by apply prefix_app_r | done | done].
Qed.

(** X4: after lines that were handled normally, a line the matcher
    rejects ends the run by [os.Exit]: the run makes the calls of the
    lines before it, logs the fatal message, and makes no call for the
    rejected line's successors. *)
Theorem rejected_line_stops_any_run {F : Type} (ParseFloat : string → option F)
    (negative : F → bool) (cfg : Config) (parser : Gonx.Parser)
    (pre rest : list string)
    (line : string) (err : Gonx.ParseError) :
  Proc.result (processLogFile ParseFloat negative cfg parser pre) = Proc.Ret tt →
  Gonx.ParseString parser line = inl err →
  processLogFile ParseFloat negative cfg parser (pre ++ line :: rest)
    = (Proc.calls (processLogFile ParseFloat negative cfg parser pre)
         ++ [LogFatalf line err], Proc.Exit).
Proof.
  intros Hpre Hrej. rewrite run_app, Hpre.
  by rewrite (processLogFile_rejected _ _ _ _ _ _ _ Hrej).
Qed.

Lemma rejected_line_stops_any_run_witness :
  Proc.result (processLogFile Strconv.ParseFloat Strconv.negative defaultConfig
                 statusTimeParser ["200 0.123"]) = Proc.Ret tt
  ∧ Gonx.ParseString statusTimeParser "abc"
    = inl (Gonx.mkParseError "abc" (Gonx.PrematureEnd 3))
  ∧ processLogFile Strconv.ParseFloat Strconv.negative defaultConfig
      statusTimeParser
      (["200 0.123"] ++ "abc" :: ["200 0.5"])
    = (Proc.calls (processLogFile Strconv.ParseFloat Strconv.negative defaultConfig
                     statusTimeParser ["200 0.123"])
         ++ [LogFatalf "abc" (Gonx.mkParseError "abc" (Gonx.PrematureEnd 3))],
       Proc.Exit).
Proof.
  assert (Proc.result (processLogFile Strconv.ParseFloat Strconv.negative defaultConfig
                         statusTimeParser ["200 0.123"]) = Proc.Ret tt) as Hpre
    by (vm_compute; reflexivity).
  assert (Gonx.ParseString statusTimeParser "abc"
          = inl (Gonx.mkParseError "abc" (Gonx.PrematureEnd 3))) as Hrej
    by (vm_compute; reflexivity).
  split; [exact Hpre |]. split; [exact Hrej |].
  exact (rejected_line_stops_any_run Strconv.ParseFloat Strconv.negative
           defaultConfig
           statusTimeParser ["200 0.123"] ["200 0.5"] "abc" _ Hpre Hrej).
Defined.

(** ** Label derivation *)

(** X5: the loop body panics on a line in two cases and no other.
    The line is matched and its request field is there and holds no
    token ([strings.Fields] gives the empty slice, as for the empty
    request or white space only): the body panics at [chunks[0]] and
    has made no call.  Or the line is matched, gets past the labels,
    and its body size is a negative number: the body panics in
    [Counter.Add], after it has logged the line and added one to the
    request counter. *)
Theorem processLine_panics_iff {F : Type} (ParseFloat : string → option F)
    (negative : F → bool) (parser : Gonx.Parser) (line : string) :
  (Proc.result (processLine ParseFloat negative parser line) = Proc.Panic
   ↔ ∃ entry,
       Gonx.ParseString parser line = inr entry
       ∧ ((∃ request, entry !! "request" = Some request
                      ∧ GoStrings.Fields request = [])
          ∨ (∃ bytes,
               Gonx.Entry.FloatField ParseFloat entry "body_bytes_sent"
                 = inr bytes
               ∧ negative bytes = true)))
  ∧ (∀ entry request,
       Gonx.ParseString parser line = inr entry →
       entry !! "request" = Some request →
       GoStrings.Fields request = [] →
       processLine ParseFloat negative parser line = ([], Proc.Panic))
  ∧ (∀ entry bytes,
       Gonx.ParseString parser line = inr entry →
       tokenless entry = false →
       Gonx.Entry.FloatField ParseFloat entry "body_bytes_sent" = inr bytes →
       negative bytes = true →
       processLine ParseFloat negative parser line
         = ([LogPrintf line; VecInc Vec.countTotal (LabelSet entry)],
            Proc.Panic)).
Proof.
  split_and!.
  - rewrite processLine_result.
    destruct (Gonx.ParseString parser line) as [err|entry] eqn:E.
    { split; [done |]. by intros (? & ? & _). }
    unfold tokenless, bytesPanic.
    destruct (entry !! "request") as [request|] eqn:Er.
    + destruct (decide (GoStrings.Fields request = [])) as [Hf|Hf].
      * rewrite bool_decide_true by done. split; [| done].
        intros _. exists entry. split; [done |]. left. by exists request.
      * rewrite bool_decide_false by done. simpl orb.
        destruct (Gonx.Entry.FloatField ParseFloat entry "body_bytes_sent")
          as [e|bytes] eqn:Eb.
        { split; [done |].
          intros (? & [= <-] & [(r & Hr & Hn) | (b & Hb & _)]);
            [congruence | congruence]. }
        destruct (negative bytes) eqn:En.
        { split; [| done]. intros _. exists entry. split; [done |].
          right. by exists bytes. }
        split; [done |].
        intros (? & [= <-] & [(r & Hr & Hn) | (b & Hb & Hneg)]);
          congruence.
    + simpl orb.
      destruct (Gonx.Entry.FloatField ParseFloat entry "body_bytes_sent")
        as [e|bytes] eqn:Eb.
      { split; [done |].
        intros (? & [= <-] & [(r & Hr & Hn) | (b & Hb & _)]);
          [congruence | congruence]. }
      destruct (negative bytes) eqn:En.
      { split; [| done]. intros _. exists entry. split; [done |].
        right. by exists bytes. }
      split; [done |].
      intros (? & [= <-] & [(r & Hr & Hn) | (b & Hb & Hneg)]);
        congruence.
  - intros entry request E Er Hf.
    rewrite (processLine_matched _ _ _ _ _ E). unfold tokenless.
    by rewrite Er, bool_decide_true.
  - intros entry bytes E Ht Eb Hneg.
    rewrite (processLine_matched _ _ _ _ _ E), Ht. unfold bytesPanic.
    by rewrite Eb, Hneg.
Qed.

(** X6: when the labels of an entry are derived without a panic, the
    tuple holds the raw status text (empty when absent) and a method
    label that has no white space in it and is empty exactly when the
    entry has no request field. *)
Theorem method_label_shape {F : Type} (entry : Gonx.Entry) (lv : list string) :
  labelValuesOf (F := F) entry = ([], Proc.Ret lv) →
  ∃ method,
    lv = [default EmptyString (entry !! "status"); method]
    ∧ spaceFree method = true
    ∧ (method = EmptyString ↔ entry !! "request" = None).
Proof.
  rewrite labelValuesOf_eq.
  destruct (tokenless entry) eqn:Ht; [done |]. intros [= <-].
  exists (methodLabel entry). split; [done |].
  unfold methodLabel, tokenless in *.
  destruct (entry !! "request") as [request|]; [| done].
  apply bool_decide_eq_false in Ht.
  pose proof (Fields_tokens request) as Htok.
  destruct (GoStrings.Fields request) as [|c chunks]; [done |].
  inversion_clear Htok as [|? ? [Hne Hfree] _]. simpl.
  split; [exact Hfree |]. split; [done | done].
Qed.

Lemma method_label_shape_witness :
  labelValuesOf (F := Q) {[ "request" := "GET /x HTTP/1.1" ]}
    = ([], Proc.Ret [EmptyString; "GET"])
  ∧ ∃ method,
      [EmptyString; "GET"]
        = [default EmptyString
             (({[ "request" := "GET /x HTTP/1.1" ]} : Gonx.Entry) !! "status");
           method]
      ∧ spaceFree method = true
      ∧ (method = EmptyString
         ↔ ({[ "request" := "GET /x HTTP/1.1" ]} : Gonx.Entry) !! "request"
           = None).
Proof.
  assert (labelValuesOf (F := Q) {[ "request" := "GET /x HTTP/1.1" ]}
          = ([], Proc.Ret [EmptyString; "GET"])) as H
    by (vm_compute; reflexivity).
  split; [exact H |].
  exact (method_label_shape (F := Q) {[ "request" := "GET /x HTTP/1.1" ]}
           [EmptyString; "GET"] H).
Defined.

(** ** The registry after a line *)

Section LineState.
Context {F : Type}.
Variable ParseFloat : string → option F.
Variable negative : F → bool.

Ltac child_step :=
  first
    [ rewrite child_apply_other by done
    | rewrite (proj1 (child_apply_push _ _ _ _))
    | rewrite (proj2 (child_apply_push _ _ _ _))
    | rewrite child_apply_VecInc ].

Lemma count_after_line (parser : Gonx.Parser) (line : string)
    (entry : Gonx.Entry) (m : Metrics F) (lvs : list string) :
  Gonx.ParseString parser line = inr entry →
  tokenless entry = false →
  child Vec.countTotal lvs
    (exec m (Proc.calls (processLine ParseFloat negative parser line)))
    = if decide (lvs = LabelSet entry)
      then Inc (child Vec.countTotal lvs m)
      else child Vec.countTotal lvs m.
Proof.
  intros Hparse Htok. rewrite (processLine_matched _ _ _ _ _ Hparse), Htok.
  assert (child Vec.countTotal lvs
            (apply (apply m (LogPrintf line))
               (VecInc Vec.countTotal (LabelSet entry)))
          = if decide (lvs = LabelSet entry)
            then Inc (child Vec.countTotal lvs m)
            else child Vec.countTotal lvs m) as Hcount.
  { destruct (decide (lvs = LabelSet entry)) as [->|Hne].
    - by rewrite child_apply_VecInc, child_apply_other.
    - rewrite !child_apply_other; [done | done |].
      simpl. congruence. }
  destruct (bytesPanic ParseFloat negative entry).
  - unfold Proc.calls; simpl fst. rewrite !exec_cons.
    change (exec ?s []) with s. exact Hcount.
  - unfold Proc.calls; simpl fst.
    change ([LogPrintf line; VecInc Vec.countTotal (LabelSet entry)] ++ ?l)
      with (LogPrintf line :: VecInc Vec.countTotal (LabelSet entry) :: l).
    rewrite !exec_cons.
    rewrite child_exec_other by apply numeric_calls_frame.
    exact Hcount.
Qed.

(** X7: on a matched line whose request is absent or holds a token, the
    request counter of the line's label set goes up by exactly one and
    the request counter of every other label set stays as it was,
    whatever the numeric fields hold. *)
Theorem request_counter_after_line (parser : Gonx.Parser) (line : string)
    (entry : Gonx.Entry) (m : Metrics F) (lvs : list string) :
  Gonx.ParseString parser line = inr entry →
  tokenless entry = false →
  incs (child Vec.countTotal lvs
          (exec m (Proc.calls (processLine ParseFloat negative parser line))))
    = if decide (lvs = LabelSet entry)
      then S (incs (child Vec.countTotal lvs m))
      else incs (child Vec.countTotal lvs m).
Proof.
  intros Hparse Htok. rewrite (count_after_line _ _ _ _ _ Hparse Htok).
  by destruct (decide (lvs = LabelSet entry)).
Qed.

(** X8: on a matched line whose request is absent or holds a token,
    and whose body size is not a negative number, the line ends
    normally and each numeric field decides its own update and no
    other: the bytes counter of the label set receives the body size
    when it is a number, the two upstream-time metrics receive the
    upstream time when it is a number, the two response-time metrics
    receive the request time when it is a number, and a field that is
    absent or not a number leaves its metrics as they were.  When the
    body size is a negative number, [Counter.Add] panics: the line
    ends there and none of the five metrics receives anything. *)
Theorem numeric_updates_after_line (parser : Gonx.Parser) (line : string)
    (entry : Gonx.Entry) (m : Metrics F) :
  Gonx.ParseString parser line = inr entry →
  tokenless entry = false →
  let lv := LabelSet entry in
  let run := processLine ParseFloat negative parser line in
  let m' := exec m (Proc.calls run) in
  let after (field : string) (old : list F) : list F :=
    match Gonx.Entry.FloatField ParseFloat entry field with
    | inr x => x :: old
    | inl _ => old
    end in
  if bytesPanic ParseFloat negative entry then
    Proc.result run = Proc.Panic
    ∧ values (child Vec.bytesTotal lv m') = values (child Vec.bytesTotal lv m)
    ∧ values (child Vec.upstreamSeconds lv m')
      = values (child Vec.upstreamSeconds lv m)
    ∧ values (child Vec.upstreamSecondsHist lv m')
      = values (child Vec.upstreamSecondsHist lv m)
    ∧ values (child Vec.responseSeconds lv m')
      = values (child Vec.responseSeconds lv m)
    ∧ values (child Vec.responseSecondsHist lv m')
      = values (child Vec.responseSecondsHist lv m)
  else
    Proc.result run = Proc.Ret tt
    ∧ values (child Vec.bytesTotal lv m')
      = after "body_bytes_sent" (values (child Vec.bytesTotal lv m))
    ∧ values (child Vec.upstreamSeconds lv m')
      = after "upstream_response_time"
          (values (child Vec.upstreamSeconds lv m))
    ∧ values (child Vec.upstreamSecondsHist lv m')
      = after "upstream_response_time"
          (values (child Vec.upstreamSecondsHist lv m))
    ∧ values (child Vec.responseSeconds lv m')
      = after "request_time" (values (child Vec.responseSeconds lv m))
    ∧ values (child Vec.responseSecondsHist lv m')
      = after "request_time" (values (child Vec.responseSecondsHist lv m)).
Proof.
  intros Hparse Htok. cbv zeta.
  rewrite (processLine_matched _ _ _ _ _ Hparse), Htok.
  destruct (bytesPanic ParseFloat negative entry).
  - unfold Proc.calls, Proc.result; simpl fst; simpl snd.
    rewrite !exec_cons; change (exec ?s []) with s.
    split_and!; [done | ..]; by rewrite !child_apply_other by done.
  - unfold Proc.calls, Proc.result; simpl fst; simpl snd.
    unfold bytesCalls, upstreamCalls, responseCalls.
    destruct (Gonx.Entry.FloatField ParseFloat entry "body_bytes_sent");
      destruct (Gonx.Entry.FloatField ParseFloat entry
                  "upstream_response_time");
      destruct (Gonx.Entry.FloatField ParseFloat entry "request_time");
      simpl app; rewrite !exec_cons; change (exec ?s []) with s;
      (split; [done |]); repeat split; repeat child_step; reflexivity.
Qed.

End LineState.

Lemma request_counter_after_line_witness :
  Gonx.ParseString statusTimeParser "200 0.123" = inr statusTimeEntry
  ∧ tokenless statusTimeEntry = false
  ∧ incs (child Vec.countTotal ["200"; EmptyString]
            (exec (Init (F := Q))
               (Proc.calls
                  (processLine Strconv.ParseFloat Strconv.negative
                     statusTimeParser "200 0.123"))))
    = if decide (["200"; EmptyString] = LabelSet statusTimeEntry)
      then S (incs (child Vec.countTotal ["200"; EmptyString] (Init (F := Q))))
      else incs (child Vec.countTotal ["200"; EmptyString] (Init (F := Q))).
Proof.
  assert (Gonx.ParseString statusTimeParser "200 0.123" = inr statusTimeEntry)
    as Hparse by (vm_compute; reflexivity).
  assert (tokenless statusTimeEntry = false) as Htok
    by (vm_compute; reflexivity).
  split; [exact Hparse |]. split; [exact Htok |].
  exact (request_counter_after_line Strconv.ParseFloat Strconv.negative
           statusTimeParser
           "200 0.123" statusTimeEntry Init ["200"; EmptyString] Hparse Htok).
Defined.

Lemma numeric_updates_after_line_witness :
  Gonx.ParseString statusTimeParser "200 0.123" = inr statusTimeEntry
  ∧ tokenless statusTimeEntry = false
  ∧ (let lv := LabelSet statusTimeEntry in
     let run := processLine Strconv.ParseFloat Strconv.negative
                  statusTimeParser "200 0.123" in
     let m' := exec (Init (F := Q)) (Proc.calls run) in
     let after (field : string) (old : list Q) : list Q :=
       match Gonx.Entry.FloatField Strconv.ParseFloat statusTimeEntry field with
       | inr x => x :: old
       | inl _ => old
       end in
     if bytesPanic Strconv.ParseFloat Strconv.negative statusTimeEntry then
       Proc.result run = Proc.Panic
       ∧ values (child Vec.bytesTotal lv m')
         = values (child Vec.bytesTotal lv Init)
       ∧ values (child Vec.upstreamSeconds lv m')
         = values (child Vec.upstreamSeconds lv Init)
       ∧ values (child Vec.upstreamSecondsHist lv m')
         = values (child Vec.upstreamSecondsHist lv Init)
       ∧ values (child Vec.responseSeconds lv m')
         = values (child Vec.responseSeconds lv Init)
       ∧ values (child Vec.responseSecondsHist lv m')
         = values (child Vec.responseSecondsHist lv Init)
     else
       Proc.result run = Proc.Ret tt
       ∧ values (child Vec.bytesTotal lv m')
         = after "body_bytes_sent" (values (child Vec.bytesTotal lv Init))
       ∧ values (child Vec.upstreamSeconds lv m')
         = after "upstream_response_time"
             (values (child Vec.upstreamSeconds lv Init))
       ∧ values (child Vec.upstreamSecondsHist lv m')
         = after "upstream_response_time"
             (values (child Vec.upstreamSecondsHist lv Init))
       ∧ values (child Vec.responseSeconds lv m')
         = after "request_time" (values (child Vec.responseSeconds lv Init))
       ∧ values (child Vec.responseSecondsHist lv m')
         = after "request_time"
             (values (child Vec.responseSecondsHist lv Init))).
Proof.
  assert (Gonx.ParseString statusTimeParser "200 0.123" = inr statusTimeEntry)
    as Hparse by (vm_compute; reflexivity).
  assert (tokenless statusTimeEntry = false) as Htok
    by (vm_compute; reflexivity).
  split; [exact Hparse |]. split; [exact Htok |].
  exact (numeric_updates_after_line Strconv.ParseFloat Strconv.negative
           statusTimeParser "200 0.123" statusTimeEntry Init Hparse Htok).
Defined.

(** ** Summaries and histograms *)

Section Pairs.
Context {F : Type}.
Variable ParseFloat : string → option F.
Variable negative : F → bool.

Lemma paired_apply_other (m : Metrics F) (c : Call F) :
  (∀ lvs, target c ≠ Some (Vec.upstreamSeconds, lvs)
          ∧ target c ≠ Some (Vec.upstreamSecondsHist, lvs)
          ∧ target c ≠ Some (Vec.responseSeconds, lvs)
          ∧ target c ≠ Some (Vec.responseSecondsHist, lvs)) →
  paired m → paired (apply m c).
Proof.
  intros Hc Hm lvs. destruct (Hc lvs) as (H1 & H2 & H3 & H4).
  rewrite !child_apply_other by done. apply Hm.
Qed.

Lemma paired_apply_upstream (m : Metrics F) (lv : list string) (x : F) :
  paired m →
  paired (apply (apply m (VecObserve Vec.upstreamSeconds lv x))
            (VecObserve Vec.upstreamSecondsHist lv x)).
Proof.
  intros Hm lvs. destruct (Hm lvs) as [Hu Hr]. split.
  - rewrite (child_apply_other Vec.upstreamSeconds) by done.
    destruct (decide (lvs = lv)) as [->|Hne].
    + rewrite (proj1 (child_apply_push _ _ _ _)).
      rewrite (proj1 (child_apply_push _ _ _ _)).
      rewrite (child_apply_other Vec.upstreamSecondsHist) by done.
      simpl. by rewrite Hu.
    + rewrite !child_apply_other; [done | | |]; simpl; congruence.
  - by rewrite !child_apply_other by done.
Qed.

Lemma paired_apply_response (m : Metrics F) (lv : list string) (x : F) :
  paired m →
  paired (apply (apply m (VecObserve Vec.responseSeconds lv x))
            (VecObserve Vec.responseSecondsHist lv x)).
Proof.
  intros Hm lvs. destruct (Hm lvs) as [Hu Hr]. split.
  - by rewrite !child_apply_other by done.
  - rewrite (child_apply_other Vec.responseSeconds) by done.
    destruct (decide (lvs = lv)) as [->|Hne].
    + rewrite (proj1 (child_apply_push _ _ _ _)).
      rewrite (proj1 (child_apply_push _ _ _ _)).
      rewrite (child_apply_other Vec.responseSecondsHist) by done.
      simpl. by rewrite Hr.
    + rewrite !child_apply_other; [done | | |]; simpl; congruence.
Qed.

Lemma paired_line (parser : Gonx.Parser) (line : string) (m : Metrics F) :
  paired m →
  paired (exec m (Proc.calls (processLine ParseFloat negative parser line))).
Proof.
  intros Hm.
  destruct (Gonx.ParseString parser line) as [err|entry] eqn:E.
  - rewrite (processLine_rejected _ _ _ _ _ E). exact Hm.
  - rewrite (processLine_matched _ _ _ _ _ E).
    destruct (tokenless entry); [exact Hm |].
    destruct (bytesPanic ParseFloat negative entry).
    { unfold Proc.calls; simpl fst. rewrite !exec_cons.
      change (exec ?s []) with s.
      apply paired_apply_other; [done |].
      by apply paired_apply_other. }
    unfold Proc.calls; simpl fst.
    unfold bytesCalls, upstreamCalls, responseCalls.
    destruct (Gonx.Entry.FloatField ParseFloat entry "body_bytes_sent");
      destruct (Gonx.Entry.FloatField ParseFloat entry "upstream_response_time");
      destruct (Gonx.Entry.FloatField ParseFloat entry "request_time");
      simpl app; rewrite !exec_cons; change (exec ?s []) with s;
      repeat first
        [ apply paired_apply_response
        | apply paired_apply_upstream
        | apply paired_apply_other; [done |] ];
      exact Hm.
Qed.

(** X9: the summary and the histogram of a latency always receive the
    same observation together.  If, under every label tuple, the two
    upstream-time metrics hold the same observations and the two
    response-time metrics do, they still do after a run over any
    lines with any parser. *)
Theorem summary_histogram_paired (cfg : Config) (parser : Gonx.Parser)
    (lines : list string) (m : Metrics F) :
  paired m →
  paired (exec m (Proc.calls
                    (processLogFile ParseFloat negative cfg parser lines))).
Proof.
  revert m. induction lines as [|line rest IH]; intros m Hm; [exact Hm |].
  rewrite processLogFile_cons.
  destruct (Proc.result (processLine ParseFloat negative parser line))
    as [[]| |] eqn:Er.
  - rewrite (bind_Ret_calls _ _ _ Er), <- exec_app. apply IH.
    by apply paired_line.
  - destruct (bind_stops (λ _, processLogFile ParseFloat negative cfg parser rest)
                (processLine ParseFloat negative parser line)) as [-> _];
      [by rewrite Er | by apply paired_line].
  - destruct (bind_stops (λ _, processLogFile ParseFloat negative cfg parser rest)
                (processLine ParseFloat negative parser line)) as [-> _];
      [by rewrite Er | by apply paired_line].
Qed.

End Pairs.

Lemma summary_histogram_paired_witness :
  paired (Init (F := Q))
  ∧ paired (exec (Init (F := Q))
              (Proc.calls
                 (processLogFile Strconv.ParseFloat Strconv.negative defaultConfig
                    statusTimeParser ["200 0.123"; "404 0.5"]))).
Proof.
  assert (paired (Init (F := Q))) as H0 by (intros lvs; split; reflexivity).
  split; [exact H0 |].
  exact (summary_histogram_paired Strconv.ParseFloat Strconv.negative
           defaultConfig
           statusTimeParser ["200 0.123"; "404 0.5"] Init H0).
Defined.

(** ** Counting lines *)

Section Counting.
Context {F : Type}.
Variable ParseFloat : string → option F.
Variable negative : F → bool.

Lemma countIf_app (p : Call F → bool) (cs cs' : list (Call F)) :
  countIf p (cs ++ cs') = countIf p cs + countIf p cs'.
Proof. unfold countIf. by rewrite List.filter_app, length_app. Qed.

(** A line makes as many [Inc] of the request counter as it logs
    "Parsed line" messages: one of each when it gets as far as the
    counter, none otherwise; a line that ends normally makes one. *)
Lemma line_counts (parser : Gonx.Parser) (line : string) :
  let cs := Proc.calls (processLine ParseFloat negative parser line) in
  countIf isCount cs = countIf isParsedLog cs
  ∧ countIf isCount cs ≤ 1
  ∧ (Proc.result (processLine ParseFloat negative parser line) = Proc.Ret tt →
     countIf isCount cs = 1).
Proof.
  cbv zeta.
  destruct (Gonx.ParseString parser line) as [err|entry] eqn:E.
  - rewrite (processLine_rejected _ _ _ _ _ E). split_and!; [done | | done].
    unfold countIf. simpl. lia.
  - rewrite (processLine_matched _ _ _ _ _ E).
    destruct (tokenless entry).
    { split_and!; [done | | done]. unfold countIf. simpl. lia. }
    destruct (bytesPanic ParseFloat negative entry).
    { split_and!; [done | | done]. unfold countIf. simpl. lia. }
    unfold Proc.calls, Proc.result; simpl fst; simpl snd.
    unfold bytesCalls, upstreamCalls, responseCalls.
    by destruct (Gonx.Entry.FloatField ParseFloat entry "body_bytes_sent");
      destruct (Gonx.Entry.FloatField ParseFloat entry
                  "upstream_response_time");
      destruct (Gonx.Entry.FloatField ParseFloat entry "request_time").
Qed.

(** X10: in every run the request counter is incremented once per
    "Parsed line" message and at most once per line; a run that ends
    normally has incremented it exactly once for each of its lines. *)
Theorem every_line_counted (cfg : Config) (parser : Gonx.Parser)
    (lines : list string) :
  let run := processLogFile ParseFloat negative cfg parser lines in
  countIf isCount (Proc.calls run) = countIf isParsedLog (Proc.calls run)
  ∧ countIf isCount (Proc.calls run) ≤ length lines
  ∧ (Proc.result run = Proc.Ret tt →
     countIf isCount (Proc.calls run) = length lines).
Proof.
  cbv zeta. induction lines as [|line rest IH]; [by split_and! |].
  destruct IH as (IHeq & IHle & IHret).
  destruct (line_counts parser line) as (Heq & Hle & Hone).
  cbv zeta in Heq, Hle, Hone.
  rewrite processLogFile_cons.
  destruct (Proc.result (processLine ParseFloat negative parser line))
    as [[]| |] eqn:Er.
  - rewrite (bind_Ret_calls _ _ _ Er), (bind_Ret_result _ _ _ Er).
    rewrite !countIf_app, <- Heq, <- IHeq. simpl length.
    split_and!; [done | lia |]. intros Hr.
    rewrite (Hone eq_refl), (IHret Hr). done.
  - destruct (bind_stops
                (λ _, processLogFile ParseFloat negative cfg parser rest)
                (processLine ParseFloat negative parser line)) as [-> Hres];
      [by rewrite Er |].
    simpl length. split_and!; [done | lia |].
    intros Hr. by destruct (Hres tt).
  - destruct (bind_stops
                (λ _, processLogFile ParseFloat negative cfg parser rest)
                (processLine ParseFloat negative parser line)) as [-> Hres];
      [by rewrite Er |].
    simpl length. split_and!; [done | lia |].
    intros Hr. by destruct (Hres tt).
Qed.

End Counting.

(** ** The handled prefix of a run *)

Section Prefix.
Context {F : Type}.
Variable ParseFloat : string → option F.
Variable negative : F → bool.

Lemma line_parsed_log (parser : Gonx.Parser) (line : string) :
  List.filter isParsedLog
      (Proc.calls (processLine ParseFloat negative parser line))
    = match lineLabels parser line with
      | Some _ => [LogPrintf line]
      | None => []
      end.
Proof.
  unfold lineLabels.
  destruct (Gonx.ParseString parser line) as [err|entry] eqn:E.
  - by rewrite (processLine_rejected _ _ _ _ _ E).
  - rewrite (processLine_matched _ _ _ _ _ E).
    destruct (tokenless entry); [done |].
    destruct (bytesPanic ParseFloat negative entry); [done |].
    unfold Proc.calls; simpl fst.
    unfold bytesCalls, upstreamCalls, responseCalls.
    by destruct (Gonx.Entry.FloatField ParseFloat entry "body_bytes_sent");
      destruct (Gonx.Entry.FloatField ParseFloat entry
                  "upstream_response_time");
      destruct (Gonx.Entry.FloatField ParseFloat entry "request_time").
Qed.

(** A line handled to its end has a label set. *)
Lemma handled_lineLabels (parser : Gonx.Parser) (line : string) :
  handled ParseFloat negative parser line = true →
  is_Some (lineLabels parser line).
Proof.
  unfold handled, lineLabels.
  destruct (Gonx.ParseString parser line) as [err|entry]; [done |].
  destruct (tokenless entry); [done | eauto].
Qed.

Lemma line_stops (cfg : Config) (parser : Gonx.Parser) (line : string)
    (rest : list string) :
  handled ParseFloat negative parser line = false →
  Proc.calls (processLogFile ParseFloat negative cfg parser (line :: rest))
    = Proc.calls (processLine ParseFloat negative parser line)
  ∧ ∀ b, Proc.result
           (processLogFile ParseFloat negative cfg parser (line :: rest))
         ≠ Proc.Ret b.
Proof.
  intros Hh. rewrite processLogFile_cons. apply bind_stops.
  intros [] H. apply processLine_handled in H. congruence.
Qed.

(** The request counter after a line, by the label set of the line. *)
Lemma count_by_labels (parser : Gonx.Parser) (line : string)
    (m : Metrics F) (lvs : list string) :
  incs (child Vec.countTotal lvs
          (exec m (Proc.calls (processLine ParseFloat negative parser line))))
    = incs (child Vec.countTotal lvs m)
      + (if bool_decide (lineLabels parser line = Some lvs) then 1 else 0).
Proof.
  unfold lineLabels.
  destruct (Gonx.ParseString parser line) as [err|entry] eqn:E.
  - rewrite (processLine_rejected _ _ _ _ _ E).
    rewrite bool_decide_false by done.
    unfold Proc.calls; simpl fst. rewrite exec_cons.
    change (exec ?s []) with s.
    rewrite child_apply_other by done. lia.
  - destruct (tokenless entry) eqn:Ht.
    + rewrite (processLine_matched _ _ _ _ _ E), Ht.
      rewrite bool_decide_false by done. simpl. lia.
    + rewrite (count_after_line ParseFloat negative _ _ _ _ _ E Ht).
      destruct (decide (lvs = LabelSet entry)) as [->|Hne].
      * rewrite bool_decide_true by done. simpl. lia.
      * rewrite bool_decide_false by congruence. lia.
Qed.

(** X11: the "Parsed line" messages of a run are, in order, the lines
    that get as far as the request counter: the lines handled to their
    end, up to the first one that is rejected, has a request without a
    token or has a negative body size, and that line too when it is
    the body size that ends the run.  These lines are a prefix of the
    input, and the run ends normally exactly when every line is
    handled to its end. *)
Theorem parsed_lines_are_the_handled_prefix (cfg : Config)
    (parser : Gonx.Parser) (lines : list string) :
  let run := processLogFile ParseFloat negative cfg parser lines in
  List.filter isParsedLog (Proc.calls run)
    = LogPrintf <$> countedPrefix ParseFloat negative parser lines
  ∧ handledPrefix ParseFloat negative parser lines
      `prefix_of` countedPrefix ParseFloat negative parser lines
  ∧ countedPrefix ParseFloat negative parser lines `prefix_of` lines
  ∧ (Proc.result run = Proc.Ret tt
     ↔ handledPrefix ParseFloat negative parser lines = lines).
Proof.
  cbv zeta. induction lines as [|line rest IH]; [by split_and! |].
  destruct IH as (IHlog & IHhc & IHpre & IHret).
  pose proof (line_parsed_log parser line) as Hlog.
  simpl handledPrefix. simpl countedPrefix.
  destruct (handled ParseFloat negative parser line) eqn:Hh.
  - destruct (handled_lineLabels _ _ Hh) as [lv El]. rewrite El in Hlog.
    apply processLine_handled in Hh as Er.
    rewrite processLogFile_cons.
    rewrite (bind_Ret_calls _ _ _ Er), (bind_Ret_result _ _ _ Er).
    rewrite List.filter_app, Hlog, IHlog. split_and!.
    + done.
    + by apply prefix_cons.
    + by apply prefix_cons.
    + rewrite IHret. split; [by intros -> | by intros [= ->]].
  - destruct (line_stops cfg parser line rest Hh) as [-> Hstop].
    rewrite Hlog. split_and!.
    + by destruct (lineLabels parser line).
    + apply prefix_nil.
    + destruct (lineLabels parser line); [| apply prefix_nil].
      by exists rest.
    + split; [intros H; by destruct (Hstop tt) | done].
Qed.

(** X12: after a run the request counter of a label set has gone up by
    the number of lines carrying this label set among those that got
    as far as the counter; the lines after them do not count. *)
Theorem request_counter_after_run (cfg : Config) (parser : Gonx.Parser)
    (lines : list string) (m : Metrics F) (lvs : list string) :
  incs (child Vec.countTotal lvs
          (exec m (Proc.calls
                     (processLogFile ParseFloat negative cfg parser lines))))
    = incs (child Vec.countTotal lvs m)
      + withLabels parser lvs
          (countedPrefix ParseFloat negative parser lines).
Proof.
  revert m. induction lines as [|line rest IH]; intros m.
  - simpl. unfold withLabels. simpl. lia.
  - simpl countedPrefix.
    destruct (handled ParseFloat negative parser line) eqn:Hh.
    + apply processLine_handled in Hh as Er.
      rewrite processLogFile_cons.
      rewrite (bind_Ret_calls _ _ _ Er), <- exec_app, IH, count_by_labels.
      unfold withLabels. simpl List.filter.
      destruct (bool_decide (lineLabels parser line = Some lvs));
        simpl length; lia.
    + destruct (line_stops cfg parser line rest Hh) as [-> _].
      rewrite count_by_labels. unfold withLabels.
      destruct (lineLabels parser line) as [lv|] eqn:El.
      * simpl List.filter. rewrite El.
        destruct (bool_decide (Some lv = Some lvs)); simpl length; lia.
      * rewrite bool_decide_false by done. simpl. lia.
Qed.

End Prefix.

(** ** A negative body size *)

(** X13: a body size that reads as a negative number ends the process.
    Under [numericFormat] the line [negativeBytesLine] is matched with
    the body size [-5]; the loop body logs the line, adds one to the
    request counter of [("200", "GET")] and panics in [Counter.Add]:
    the bytes counter and the response-time metrics receive nothing,
    and a run stops at this line whatever follows it. *)
Theorem negative_body_size_panics (cfg : Config) (rest : list string) :
  ∃ parser entry,
    Gonx.NewParser numericFormat = inr parser
    ∧ Gonx.ParseString parser negativeBytesLine = inr entry
    ∧ entry = {[ "status" := "200"; "request" := "GET / HTTP/1.1";
                 "body_bytes_sent" := "-5"; "request_time" := "0.005" ]}
    ∧ Gonx.Entry.FloatField Strconv.ParseFloat entry "body_bytes_sent"
        = inr (-5 # 1)
    ∧ processLine Strconv.ParseFloat Strconv.negative parser negativeBytesLine
        = ([LogPrintf negativeBytesLine;
            VecInc Vec.countTotal ["200"; "GET"]], Proc.Panic)
    ∧ processLogFile Strconv.ParseFloat Strconv.negative cfg parser
        (negativeBytesLine :: rest)
        = ([LogPrintf negativeBytesLine;
            VecInc Vec.countTotal ["200"; "GET"]], Proc.Panic).
Proof.
  set (parser := Gonx.mkParser numericFormat (Gonx.tokenize numericFormat)).
  set (entry := ({[ "status" := "200"; "request" := "GET / HTTP/1.1";
                    "body_bytes_sent" := "-5"; "request_time" := "0.005" ]}
                   : Gonx.Entry)).
  assert (Gonx.ParseString parser negativeBytesLine = inr entry) as Hparse
    by (vm_compute; reflexivity).
  assert (tokenless entry = false) as Htok by (vm_compute; reflexivity).
  assert (bytesPanic Strconv.ParseFloat Strconv.negative entry = true)
    as Hneg by (vm_compute; reflexivity).
  assert (LabelSet entry = ["200"; "GET"]) as Hlabels
    by (vm_compute; reflexivity).
  assert (processLine Strconv.ParseFloat Strconv.negative parser
            negativeBytesLine
          = ([LogPrintf negativeBytesLine;
              VecInc Vec.countTotal ["200"; "GET"]], Proc.Panic)) as Hrun
    by (by rewrite (processLine_matched _ _ _ _ _ Hparse), Htok, Hneg,
             Hlabels).
  exists parser, entry.
  split; [reflexivity |]. split; [exact Hparse |]. split; [reflexivity |].
  split; [vm_compute; reflexivity |]. split; [exact Hrun |].
  rewrite processLogFile_cons, Hrun. reflexivity.
Qed.
